(** * Instagram MCP server: dispatch and response normalisation

    A shallow embedding of [src/instagram_mcp_server.py]: the tool
    catalogue, the tool dispatcher [handle_call_tool], the resource reader
    [handle_read_resource] and the prompt composer [handle_get_prompt].

    Python values are an inductive type, exceptions are values of [exn],
    and the handlers run in a small state-and-exception monad whose state
    holds the process-wide client handle, a logical instant and a log of
    the observable events (the calls made on the API client and the
    request objects constructed). *)

From Stdlib Require Import String Ascii List ZArith NArith Lia Bool Arith.
From Stdlib Require Import DecimalString.
Import ListNotations.
Local Open Scope string_scope.

Set Implicit Arguments.

(** ** Characters that cannot be written inside a literal *)

Definition dquote : ascii := "034"%char.
Definition newline : ascii := "010"%char.
Definition backslash : ascii := "092"%char.

(** ** Python values

    A Python [str] is a [string] whose characters stand for the code points
    U+0000 to U+00FF; numbers are integers.  [PObj] is any object the JSON
    encoder has no rule for (a [datetime], say), given by its type name
    and its [str()]. *)

#[warnings="-register-all"]
Inductive pyval : Type :=
| PNone
| PBool (b : bool)
| PInt (n : Z)
| PStr (s : string)
| PList (l : list pyval)
| PDict (d : list (string * pyval))
| PObj (type_name : string) (str_of : string).

Definition pydict := list (string * pyval).

(** [bool(v)] *)
Definition truthy (v : pyval) : bool :=
  match v with
  | PNone => false
  | PBool b => b
  | PInt n => negb (n =? 0)%Z
  | PStr s => negb (s =? "")
  | PList l => match l with [] => false | _ => true end
  | PDict d => match d with [] => false | _ => true end
  | PObj _ _ => true
  end.

(** [key in d] and the binding of [key] in a dict whose keys are distinct. *)
Fixpoint lookup (k : string) (d : pydict) : option pyval :=
  match d with
  | [] => None
  | (k', v) :: d' => if k' =? k then Some v else lookup k d'
  end.

Definition has_key (k : string) (d : pydict) : bool :=
  match lookup k d with Some _ => true | None => false end.

(** [d.get(k)] and [d.get(k, default)] *)
Definition dict_get (d : pydict) (k : string) : pyval :=
  match lookup k d with Some v => v | None => PNone end.

Definition dict_get_default (d : pydict) (k : string) (dflt : pyval) : pyval :=
  match lookup k d with Some v => v | None => dflt end.

Definition string_of_Z (n : Z) : string := NilZero.string_of_int (Z.to_int n).

(** ** Exceptions and results

    Only subclasses of [Exception] are modelled: these are what the
    handlers' [except Exception] clauses see.  An [InstagramAPIError]
    has a [str()] and the attributes [message], [error_code] and
    [error_subcode]; [PyError cls msg] is any other exception, of class
    [cls] and with [str()] equal to [msg]. *)

Inductive exn : Type :=
| InstagramAPIError (str_text message : string) (error_code error_subcode : pyval)
| PyError (cls : string) (msg : string).

Inductive res (A : Type) : Type :=
| Ret (a : A)
| Raise (e : exn).
Arguments Ret {A} a.
Arguments Raise {A} e.

(** [str(e)] *)
Definition exn_str (e : exn) : string :=
  match e with
  | InstagramAPIError t _ _ _ => t
  | PyError _ m => m
  end.

(** [d[k]]: a missing key raises [KeyError], whose [str()] is the key's
    [repr]. *)
Definition dict_item (d : pydict) (k : string) : res pyval :=
  match lookup k d with
  | Some v => Ret v
  | None => Raise (PyError "KeyError" ("'" ++ k ++ "'"))
  end.

(** ** JSON text: [json.dumps(v, indent=2)] *)

Definition hex_digit (n : N) : ascii :=
  match n with
  | 0 => "0" | 1 => "1" | 2 => "2" | 3 => "3" | 4 => "4" | 5 => "5"
  | 6 => "6" | 7 => "7" | 8 => "8" | 9 => "9" | 10 => "a" | 11 => "b"
  | 12 => "c" | 13 => "d" | 14 => "e" | _ => "f"
  end%N%char.

(** The encoder's [ensure_ascii] escaping of one character: the quote and
    the backslash are escaped, space to tilde stand for themselves, and
    everything else is a short escape or [\u00XX]. *)
Definition escape_char (c : ascii) : string :=
  let n := N_of_ascii c in
  if (n =? 34)%N then String backslash (String dquote "")
  else if (n =? 92)%N then String backslash (String backslash "")
  else if (n =? 10)%N then String backslash "n"
  else if (n =? 13)%N then String backslash "r"
  else if (n =? 9)%N then String backslash "t"
  else if (n =? 8)%N then String backslash "b"
  else if (n =? 12)%N then String backslash "f"
  else if ((32 <=? n) && (n <=? 126))%N then String c ""
  else String backslash
         ("u00" ++ String (hex_digit (n / 16)) (String (hex_digit (n mod 16)) "")).

Fixpoint escape_string (s : string) : string :=
  match s with
  | EmptyString => ""
  | String c s' => escape_char c ++ escape_string s'
  end.

Definition json_string (s : string) : string :=
  String dquote (escape_string s ++ String dquote "").

Fixpoint spaces (n : nat) : string :=
  match n with O => "" | S n' => String " " (spaces n') end.

Definition newline_indent (level : nat) : string :=
  String newline (spaces (2 * level)).

(** Items joined by [",\n" + indent]. *)
Fixpoint join_items (level : nat) (items : list string) : string :=
  match items with
  | [] => ""
  | [x] => x
  | x :: rest => x ++ "," ++ newline_indent level ++ join_items level rest
  end.

Definition bracket (open close : string) (level : nat) (items : list string) : string :=
  match items with
  | [] => open ++ close
  | _ => open ++ newline_indent (S level) ++ join_items (S level) items
              ++ newline_indent level ++ close
  end.

(** The text of a value at nesting depth [level]; an object without an
    encoding rule is written as the string of its [str()], which is what
    [default=str] does. *)
Fixpoint json_text (level : nat) (v : pyval) : string :=
  match v with
  | PNone => "null"
  | PBool true => "true"
  | PBool false => "false"
  | PInt n => string_of_Z n
  | PStr s => json_string s
  | PList l => bracket "[" "]" level (map (json_text (S level)) l)
  | PDict d =>
      bracket "{" "}" level
        (map (fun kv => json_string (fst kv) ++ ": " ++ json_text (S level) (snd kv)) d)
  | PObj _ s => json_string s
  end.

(** Whether the plain encoder accepts the value, and the type name of the
    first object it rejects. *)
Fixpoint first_unserializable (v : pyval) : option string :=
  match v with
  | PList l =>
      fold_right (fun x acc =>
                    match first_unserializable x with Some t => Some t | None => acc end)
                 None l
  | PDict d =>
      fold_right (fun kv acc =>
                    match first_unserializable (snd kv) with Some t => Some t | None => acc end)
                 None d
  | PObj t _ => Some t
  | _ => None
  end.

(** [json.dumps(v, indent=2)] *)
Definition json_dumps (v : pyval) : res string :=
  match first_unserializable v with
  | Some t => Raise (PyError "TypeError"
                       ("Object of type " ++ t ++ " is not JSON serializable"))
  | None => Ret (json_text 0 v)
  end.

(** [json.dumps(v, indent=2, default=str)] *)
Definition json_dumps_default_str (v : pyval) : string := json_text 0 v.

(** The value of a decimal digit. *)
Definition digit_value (c : ascii) : option N :=
  let n := N_of_ascii c in
  if ((48 <=? n) && (n <=? 57))%N then Some (n - 48)%N else None.

(** ** A JSON reader

    The reader recognises the JSON grammar over the values modelled here
    (numbers are integers) and is used to state what a returned text
    parses to. *)

Definition is_json_space (c : ascii) : bool :=
  let n := N_of_ascii c in ((n =? 32) || (n =? 10) || (n =? 13) || (n =? 9))%N.

Fixpoint skip_spaces (s : string) : string :=
  match s with
  | String c s' => if is_json_space c then skip_spaces s' else s
  | EmptyString => ""
  end.

Definition hex_value (c : ascii) : option N :=
  let n := N_of_ascii c in
  if ((48 <=? n) && (n <=? 57))%N then Some (n - 48)%N
  else if ((97 <=? n) && (n <=? 102))%N then Some (n - 87)%N
  else if ((65 <=? n) && (n <=? 70))%N then Some (n - 55)%N
  else None.

Definition hex4 (a b c d : ascii) : option N :=
  match hex_value a, hex_value b, hex_value c, hex_value d with
  | Some x, Some y, Some z, Some t => Some (((x * 16 + y) * 16 + z) * 16 + t)%N
  | _, _, _, _ => None
  end.

Definition unescape (c : ascii) : option ascii :=
  let n := N_of_ascii c in
  if (n =? 34)%N then Some dquote
  else if (n =? 92)%N then Some backslash
  else if (n =? 47)%N then Some "/"%char
  else if (n =? 110)%N then Some newline
  else if (n =? 114)%N then Some "013"%char
  else if (n =? 116)%N then Some "009"%char
  else if (n =? 98)%N then Some "008"%char
  else if (n =? 102)%N then Some "012"%char
  else None.

Definition cons_char (c : ascii) (r : option (string * string)) : option (string * string) :=
  match r with
  | Some (s, rest) => Some (String c s, rest)
  | None => None
  end.

(** The characters of a string literal after its opening quote, up to the
    closing quote; the rest of the input follows. *)
Fixpoint read_string (s : string) : option (string * string) :=
  match s with
  | EmptyString => None
  | String c s1 =>
      if Ascii.eqb c dquote then Some ("", s1)
      else if Ascii.eqb c backslash then
        match s1 with
        | String e s2 =>
            if Ascii.eqb e "u" then
              match s2 with
              | String h1 (String h2 (String h3 (String h4 s3))) =>
                  match hex4 h1 h2 h3 h4 with
                  | Some n =>
                      if (n <? 256)%N then cons_char (ascii_of_N n) (read_string s3)
                      else None
                  | None => None
                  end
              | _ => None
              end
            else
              match unescape e with
              | Some ch => cons_char ch (read_string s2)
              | None => None
              end
        | EmptyString => None
        end
      else if (N_of_ascii c <? 32)%N then None
      else cons_char c (read_string s1)
  end.

Fixpoint read_number (acc : Z) (s : string) : Z * string :=
  match s with
  | String c s' =>
      match digit_value c with
      | Some d => read_number (10 * acc + Z.of_N d) s'
      | None => (acc, s)
      end
  | EmptyString => (acc, "")
  end.

Definition starts_with_digit (s : string) : bool :=
  match s with
  | String c _ => match digit_value c with Some _ => true | None => false end
  | EmptyString => false
  end.

Fixpoint strip_prefix (p s : string) : option string :=
  match p, s with
  | EmptyString, _ => Some s
  | String a p', String b s' => if Ascii.eqb a b then strip_prefix p' s' else None
  | _, EmptyString => None
  end.

Definition read_atom (s : string) : option (pyval * string) :=
  match strip_prefix "null" s with
  | Some rest => Some (PNone, rest)
  | None =>
  match strip_prefix "true" s with
  | Some rest => Some (PBool true, rest)
  | None =>
  match strip_prefix "false" s with
  | Some rest => Some (PBool false, rest)
  | None =>
  match s with
  | String "-" s' =>
      if starts_with_digit s'
      then let '(n, rest) := read_number 0 s' in Some (PInt (- n), rest)
      else None
  | _ =>
      if starts_with_digit s
      then let '(n, rest) := read_number 0 s in Some (PInt n, rest)
      else None
  end end end end.

Fixpoint read_value (fuel : nat) (s : string) : option (pyval * string) :=
  match fuel with
  | O => None
  | S fuel' =>
      match skip_spaces s with
      | String c rest =>
          if Ascii.eqb c dquote then
            match read_string rest with
            | Some (str, rest') => Some (PStr str, rest')
            | None => None
            end
          else if Ascii.eqb c "[" then
            match skip_spaces rest with
            | String "]" rest' => Some (PList [], rest')
            | _ =>
                match read_items fuel' rest with
                | Some (items, rest') => Some (PList items, rest')
                | None => None
                end
            end
          else if Ascii.eqb c "{" then
            match skip_spaces rest with
            | String "}" rest' => Some (PDict [], rest')
            | _ =>
                match read_members fuel' rest with
                | Some (members, rest') => Some (PDict members, rest')
                | None => None
                end
            end
          else read_atom (String c rest)
      | EmptyString => None
      end
  end
with read_items (fuel : nat) (s : string) : option (list pyval * string) :=
  match fuel with
  | O => None
  | S fuel' =>
      match read_value fuel' s with
      | Some (v, rest) =>
          match skip_spaces rest with
          | String "," rest' =>
              match read_items fuel' rest' with
              | Some (vs, rest'') => Some (v :: vs, rest'')
              | None => None
              end
          | String "]" rest' => Some ([v], rest')
          | _ => None
          end
      | None => None
      end
  end
with read_members (fuel : nat) (s : string) : option (pydict * string) :=
  match fuel with
  | O => None
  | S fuel' =>
      match skip_spaces s with
      | String c rest =>
          if Ascii.eqb c dquote then
            match read_string rest with
            | Some (k, rest1) =>
                match skip_spaces rest1 with
                | String ":" rest2 =>
                    match read_value fuel' rest2 with
                    | Some (v, rest3) =>
                        match skip_spaces rest3 with
                        | String "," rest4 =>
                            match read_members fuel' rest4 with
                            | Some (kvs, rest5) => Some ((k, v) :: kvs, rest5)
                            | None => None
                            end
                        | String "}" rest4 => Some ([(k, v)], rest4)
                        | _ => None
                        end
                    | None => None
                    end
                | _ => None
                end
            | None => None
            end
          else None
      | EmptyString => None
      end
  end.

(** [json.loads(s)] on the values modelled here: one value, with nothing
    but spaces around it. *)
Definition json_loads (s : string) : option pyval :=
  match read_value (S (String.length s)) s with
  | Some (v, rest) => match skip_spaces rest with EmptyString => Some v | _ => None end
  | None => None
  end.

(** ** Timestamps: [datetime] and [isoformat()]

    A [datetime] is naive, as [datetime.utcnow()] returns it.  Python keeps
    every field in range ([valid_datetime]). *)

Record datetime : Type := mk_datetime {
  year : N; month : N; day : N;
  hour : N; minute : N; second : N; microsecond : N
}.

Definition is_leap (y : N) : bool :=
  ((y mod 4 =? 0) && (negb (y mod 100 =? 0) || (y mod 400 =? 0)))%N.

Definition days_in_month (y m : N) : N :=
  match m with
  | 2 => if is_leap y then 29 else 28
  | 4 | 6 | 9 | 11 => 30
  | _ => 31
  end%N.

Definition valid_datetime (d : datetime) : bool :=
  ((1 <=? year d) && (year d <=? 9999) &&
   (1 <=? month d) && (month d <=? 12) &&
   (1 <=? day d) && (day d <=? days_in_month (year d) (month d)) &&
   (hour d <? 24) && (minute d <? 60) && (second d <? 60) &&
   (microsecond d <? 1000000))%N.

Definition digit_char (d : N) : ascii := ascii_of_N (48 + d).

(** [n] written with exactly [width] decimal digits, most significant
    first: [%0<width>d] for a number below [10 ^ width]. *)
Fixpoint zero_pad (width : nat) (n : N) : string :=
  match width with
  | O => ""
  | S w => String (digit_char ((n / 10 ^ N.of_nat w) mod 10)) (zero_pad w n)
  end.

(** [d.isoformat()]: the fraction is written only when it is not zero. *)
Definition isoformat (d : datetime) : string :=
  zero_pad 4 (year d) ++ "-" ++ zero_pad 2 (month d) ++ "-" ++ zero_pad 2 (day d)
  ++ "T" ++ zero_pad 2 (hour d) ++ ":" ++ zero_pad 2 (minute d) ++ ":"
  ++ zero_pad 2 (second d)
  ++ (if (microsecond d =? 0)%N then "" else "." ++ zero_pad 6 (microsecond d)).

(** A reader of the ISO-8601 extended format
    [YYYY-MM-DDTHH:MM:SS[.ffffff]], which accepts a text only when it
    denotes a calendar date and a time of day. *)
Fixpoint read_digits (width : nat) (acc : N) (s : string) : option (N * string) :=
  match width with
  | O => Some (acc, s)
  | S w =>
      match s with
      | String c s' =>
          match digit_value c with
          | Some d => read_digits w (10 * acc + d) s'
          | None => None
          end
      | EmptyString => None
      end
  end.

Definition read_char (c : ascii) (s : string) : option string :=
  match s with
  | String c' s' => if Ascii.eqb c c' then Some s' else None
  | EmptyString => None
  end.

Definition bind_opt {A B} (o : option A) (f : A -> option B) : option B :=
  match o with Some a => f a | None => None end.

Definition read_field (width : nat) (s : string) : option (N * string) :=
  read_digits width 0 s.

Definition read_fraction (s : string) : option N :=
  match s with
  | EmptyString => Some 0%N
  | String c s' =>
      if Ascii.eqb c "." then
        match read_field 6 s' with
        | Some (us, EmptyString) => Some us
        | _ => None
        end
      else None
  end.

Definition parse_iso8601 (s : string) : option datetime :=
  bind_opt (read_field 4 s) (fun '(y, s) =>
  bind_opt (read_char "-" s) (fun s =>
  bind_opt (read_field 2 s) (fun '(mo, s) =>
  bind_opt (read_char "-" s) (fun s =>
  bind_opt (read_field 2 s) (fun '(d, s) =>
  bind_opt (read_char "T" s) (fun s =>
  bind_opt (read_field 2 s) (fun '(h, s) =>
  bind_opt (read_char ":" s) (fun s =>
  bind_opt (read_field 2 s) (fun '(mi, s) =>
  bind_opt (read_char ":" s) (fun s =>
  bind_opt (read_field 2 s) (fun '(se, s) =>
  bind_opt (read_fraction s) (fun us =>
  let d := mk_datetime y mo d h mi se us in
  if valid_datetime d then Some d else None)))))))))))).

(** Comparison of naive datetimes: field by field, most significant
    first. *)
Definition dt_fields (d : datetime) : list N :=
  [year d; month d; day d; hour d; minute d; second d; microsecond d].

Fixpoint lex_leb (a b : list N) : bool :=
  match a, b with
  | x :: a', y :: b' =>
      if (x <? y)%N then true else if (y <? x)%N then false else lex_leb a' b'
  | _, _ => true
  end.

Definition dt_leb (d1 d2 : datetime) : bool := lex_leb (dt_fields d1) (dt_fields d2).

(** ** Data model of the collaborators

    The models and the API client live in modules that are imported by the
    server ([.models.instagram_models], [.instagram_client]); the server
    uses them only through the operations below. *)

(** Modelled from the spec: the result envelope [MCPToolResult], whose
    class is declared in [models/instagram_models.py].  The spec gives it
    a success flag, an optional payload, an optional error text and a
    metadata mapping; a field that the constructor call leaves out is
    [None] for the payload and the error and the empty mapping for the
    metadata. *)
Record MCPToolResult : Type := mk_result {
  success : bool;
  data : pyval;
  error : option string;
  metadata : pydict
}.

(** [result.dict()] *)
Definition MCPToolResult_dict (r : MCPToolResult) : pyval :=
  PDict [("success", PBool (success r));
         ("data", data r);
         ("error", match error r with Some e => PStr e | None => PNone end);
         ("metadata", PDict (metadata r))].

(** Modelled from the spec: the domain objects returned by the API client
    (profile, insight, page, publish result), which the server only
    serialises to a plain mapping with [.dict()]. *)
Record DomainObject : Type := mk_object { dict : pydict }.

Definition Profile := DomainObject.
Definition Insight := DomainObject.
Definition Page := DomainObject.
Definition PublishResponse := DomainObject.

(** Modelled from the spec: a media post, with the attributes that the
    prompt composer reads and its [.dict()]. *)
Record Post : Type := mk_post {
  post_id : pyval;
  caption : option string;
  like_count : pyval;
  comments_count : pyval;
  post_dict : pydict
}.

(** Modelled from the spec: [PublishMediaRequest], four optional
    fields. *)
Record PublishMediaRequest : Type := mk_request {
  image_url : option string;
  video_url : option string;
  request_caption : option string;
  location_id : option string
}.

(** Modelled from the spec: [InsightPeriod], the closed enumeration
    day, week, days_28. *)
Inductive InsightPeriod : Type := DAY | WEEK | DAYS_28.

Definition period_value (p : InsightPeriod) : string :=
  match p with DAY => "day" | WEEK => "week" | DAYS_28 => "days_28" end.

(** A member of the enumeration [InsightMetric], given by its value. *)
Inductive InsightMetric : Type := Metric (value : string).

(** The [metrics] argument of [get_media_insights]: the raw argument when
    it is falsy, the coerced members otherwise. *)
Inductive metrics_arg : Type :=
| MetricsRaw (v : pyval)
| MetricsCoerced (l : list InsightMetric).

(** The API client: one outcome per operation and argument list.  An
    argument that the call site does not pass is [None] at the outer
    [option]. *)
Record InstagramClient : Type := mk_client {
  get_profile_info : option pyval -> res Profile;
  get_media_posts : option pyval -> option pyval -> option pyval -> res (list Post);
  get_media_insights : pyval -> option metrics_arg -> res (list Insight);
  publish_media : PublishMediaRequest -> res PublishResponse;
  get_account_pages : res (list Page);
  get_account_insights :
    option pyval -> option pyval -> option InsightPeriod -> res (list Insight);
  validate_access_token : res bool
}.

(** The calls as a test double records them. *)
Inductive call : Type :=
| GetProfileInfo (account_id : option pyval)
| GetMediaPosts (account_id limit after : option pyval)
| GetMediaInsights (media_id : pyval) (metrics : option metrics_arg)
| PublishMedia (request : PublishMediaRequest)
| GetAccountPages
| GetAccountInsights (account_id metrics : option pyval) (period : option InsightPeriod)
| ValidateAccessToken.

Inductive event : Type :=
| ClientBuilt
| RequestBuilt (arguments : pydict)
| ApiCall (c : call).

(** What the server takes from outside [src/]: the outcome of
    [InstagramClient()], the validating constructor
    [PublishMediaRequest] applied to the argument mapping, the values of [InsightMetric],
    the builtin [repr] and the wall clock read at each logical instant. *)
Record Collaborators : Type := mk_collaborators {
  InstagramClient_init : res InstagramClient;
  PublishMediaRequest_init : pydict -> res PublishMediaRequest;
  InsightMetric_values : list string;
  py_repr : pyval -> string;
  utc_clock : nat -> datetime
}.

(** ** The process state and the handler monad *)

Record World : Type := mk_world {
  instagram_client : option InstagramClient;
  now : nat;
  events : list event
}.

Definition M (A : Type) : Type := World -> res A * World.

Definition ret {A} (a : A) : M A := fun w => (Ret a, w).

Definition bind {A B} (m : M A) (k : A -> M B) : M B :=
  fun w => match m w with
           | (Ret a, w') => k a w'
           | (Raise e, w') => (Raise e, w')
           end.

Definition raise {A} (e : exn) : M A := fun w => (Raise e, w).

Definition lift {A} (r : res A) : M A := fun w => (r, w).

(** [try: m  except <Exception> as e: handler e] *)
Definition try_except {A} (m : M A) (handler : exn -> M A) : M A :=
  fun w => match m w with
           | (Ret a, w') => (Ret a, w')
           | (Raise e, w') => handler e w'
           end.

Declare Scope py_scope.
Delimit Scope py_scope with py.
Notation "x <- m ;; k" := (bind m (fun x => k))
  (at level 61, m at next level, right associativity) : py_scope.
Local Open Scope py_scope.

Definition log_event (ev : event) (w : World) : World :=
  mk_world (instagram_client w) (now w) (events w ++ [ev]).

(** [await instagram_client.<operation>(...)]: the call is recorded, its
    outcome is the client's, and an instant passes. *)
Definition await {A} (c : call) (outcome : res A) : M A :=
  fun w => (outcome, mk_world (instagram_client w) (S (now w)) (events w ++ [ApiCall c])).

Fixpoint map_res {A B} (f : A -> res B) (l : list A) : res (list B) :=
  match l with
  | [] => Ret []
  | x :: l' =>
      match f x with
      | Raise e => Raise e
      | Ret y => match map_res f l' with
                 | Raise e => Raise e
                 | Ret ys => Ret (y :: ys)
                 end
      end
  end.

Definition type_name (v : pyval) : string :=
  match v with
  | PNone => "NoneType" | PBool _ => "bool" | PInt _ => "int" | PStr _ => "str"
  | PList _ => "list" | PDict _ => "dict" | PObj t _ => t
  end.

(** [for m in v]: the items of a list, the characters of a string, the
    keys of a dict. *)
Definition py_iter (v : pyval) : res (list pyval) :=
  match v with
  | PList l => Ret l
  | PStr s => Ret (map (fun c => PStr (String c "")) (list_ascii_of_string s))
  | PDict d => Ret (map (fun kv => PStr (fst kv)) d)
  | _ => Raise (PyError "TypeError" ("'" ++ type_name v ++ "' object is not iterable"))
  end.

Definition mem_string (s : string) (l : list string) : bool :=
  existsb (String.eqb s) l.

(** [InsightPeriod(v)] *)
Definition coerce_period (repr : pyval -> string) (v : pyval) : res InsightPeriod :=
  match v with
  | PStr s =>
      if s =? "day" then Ret DAY
      else if s =? "week" then Ret WEEK
      else if s =? "days_28" then Ret DAYS_28
      else Raise (PyError "ValueError" (repr v ++ " is not a valid InsightPeriod"))
  | _ => Raise (PyError "ValueError" (repr v ++ " is not a valid InsightPeriod"))
  end.

(** [InsightMetric(v)] *)
Definition coerce_metric (values : list string) (repr : pyval -> string) (v : pyval)
  : res InsightMetric :=
  match v with
  | PStr s =>
      if mem_string s values then Ret (Metric s)
      else Raise (PyError "ValueError" (repr v ++ " is not a valid InsightMetric"))
  | _ => Raise (PyError "ValueError" (repr v ++ " is not a valid InsightMetric"))
  end.

(** ** The tool catalogue: [handle_list_tools] *)

Record Tool : Type := mk_tool {
  tool_name : string;
  tool_description : string;
  inputSchema : pyval
}.

Definition string_property (description : string) : pyval :=
  PDict [("type", PStr "string"); ("description", PStr description)].

Definition uri_property (description : string) : pyval :=
  PDict [("type", PStr "string"); ("format", PStr "uri");
         ("description", PStr description)].

Definition enum_array_property (members : list string) (description : string) : pyval :=
  PDict [("type", PStr "array");
         ("items", PDict [("type", PStr "string");
                          ("enum", PList (map PStr members))]);
         ("description", PStr description)].

Definition no_properties : pyval :=
  PDict [("type", PStr "object"); ("properties", PDict []);
         ("additionalProperties", PBool false)].

Definition handle_list_tools : list Tool :=
  [ mk_tool "get_profile_info"
      "Get Instagram business profile info (followers, bio, details)."
      (PDict [("type", PStr "object");
              ("properties",
               PDict [("account_id",
                       string_property "Instagram business account ID (optional).")]);
              ("additionalProperties", PBool false)]);
    mk_tool "get_media_posts"
      "Get recent media posts with engagement metrics."
      (PDict [("type", PStr "object");
              ("properties",
               PDict [("account_id", string_property "Optional account id");
                      ("limit",
                       PDict [("type", PStr "integer");
                              ("description", PStr "Number of posts (max 100)");
                              ("minimum", PInt 1); ("maximum", PInt 100);
                              ("default", PInt 25)]);
                      ("after", string_property "Pagination cursor")]);
              ("additionalProperties", PBool false)]);
    mk_tool "get_media_insights"
      "Get insights for a specific Instagram post."
      (PDict [("type", PStr "object");
              ("properties",
               PDict [("media_id",
                       string_property "Instagram media ID to fetch insights for");
                      ("metrics",
                       enum_array_property
                         ["reach"; "likes"; "comments"; "shares"; "saves"; "plays"]
                         "Specific metrics (optional).")]);
              ("required", PList [PStr "media_id"]);
              ("additionalProperties", PBool false)]);
    mk_tool "publish_media"
      "Upload & publish an image or video with caption/location."
      (PDict [("type", PStr "object");
              ("properties",
               PDict [("image_url",
                       uri_property
                         "Public URL of the image (use either image_url or video_url).");
                      ("video_url",
                       uri_property
                         "Public URL of the video (use either video_url or image_url).");
                      ("caption", string_property "Optional caption");
                      ("location_id", string_property "FB location ID (optional)")]);
              ("additionalProperties", PBool false)]);
    mk_tool "get_account_pages"
      "Get Facebook Pages connected to the account and their IG accounts."
      no_properties;
    mk_tool "get_account_insights"
      "Get account-level insights for the Instagram business account."
      (PDict [("type", PStr "object");
              ("properties",
               PDict [("account_id", string_property "Optional account id");
                      ("metrics",
                       enum_array_property
                         ["reach"; "profile_views"; "website_clicks"]
                         "Metrics to retrieve.");
                      ("period",
                       PDict [("type", PStr "string");
                              ("enum", PList [PStr "day"; PStr "week"; PStr "days_28"]);
                              ("description", PStr "Time period for insights");
                              ("default", PStr "day")])]);
              ("additionalProperties", PBool false)]);
    mk_tool "validate_access_token"
      "Validate the Instagram API access token & permissions."
      no_properties ].

Definition catalogued (name : string) : bool :=
  mem_string name (map tool_name handle_list_tools).

(** ** The dispatcher: [handle_call_tool] *)

Record TextContent : Type := mk_text_content {
  content_type : string;
  text : string
}.

(** The fixed message of the image/video exclusivity check. *)
Definition exclusivity_message : string :=
  "Exactly one of image_url or video_url is required.".

Definition posts_data (posts : list Post) : pyval :=
  PDict [("posts", PList (map (fun p => PDict (post_dict p)) posts));
         ("count", PInt (Z.of_nat (length posts)))].

Definition dicts (l : list DomainObject) : pyval :=
  PList (map (fun o => PDict (dict o)) l).

Section Server.

Variable deps : Collaborators.

(** [if not instagram_client: instagram_client = InstagramClient()] *)
Definition obtain_client : M InstagramClient :=
  fun w =>
    match instagram_client w with
    | Some client => (Ret client, w)
    | None =>
        match InstagramClient_init deps with
        | Ret client =>
            (Ret client, mk_world (Some client) (now w) (events w ++ [ClientBuilt]))
        | Raise e => (Raise e, log_event ClientBuilt w)
        end
    end.

(** [datetime.utcnow()] *)
Definition utcnow : M datetime := fun w => (Ret (utc_clock deps (now w)), w).

(** [PublishMediaRequest] applied to the argument mapping *)
Definition new_request (arguments : pydict) : M PublishMediaRequest :=
  fun w => (PublishMediaRequest_init deps arguments, log_event (RequestBuilt arguments) w).

(** [_wrap(result)] *)
Definition _wrap (result : MCPToolResult) : list TextContent :=
  [mk_text_content "text" (json_dumps_default_str (MCPToolResult_dict result))].

(** [{"tool": name, "timestamp": datetime.utcnow().isoformat()}] *)
Definition tool_metadata (name : string) : M pydict :=
  t <- utcnow ;;
  ret [("tool", PStr name); ("timestamp", PStr (isoformat t))].

(** [MCPToolResult(success=True, data=..., metadata={tool, timestamp})] *)
Definition succeed (name : string) (payload : pyval) : M MCPToolResult :=
  md <- tool_metadata name ;;
  ret (mk_result true payload None md).

(** [[InsightMetric(m) for m in metrics]] when [metrics] is truthy *)
Definition coerce_metrics (metrics : pyval) : res metrics_arg :=
  if truthy metrics then
    match py_iter metrics with
    | Raise e => Raise e
    | Ret items =>
        match map_res (coerce_metric (InsightMetric_values deps) (py_repr deps)) items with
        | Raise e => Raise e
        | Ret ms => Ret (MetricsCoerced ms)
        end
    end
  else Ret (MetricsRaw metrics).

(** The body of the [try] block, up to the envelope handed to [_wrap]. *)
Definition dispatch (client : InstagramClient) (name : string) (arguments : pydict)
  : M MCPToolResult :=
  if name =? "get_profile_info" then
    let account_id := dict_get arguments "account_id" in
    profile <- await (GetProfileInfo (Some account_id))
                     (get_profile_info client (Some account_id)) ;;
    succeed name (PDict (dict profile))
  else if name =? "get_media_posts" then
    let account_id := dict_get arguments "account_id" in
    let limit := dict_get_default arguments "limit" (PInt 25) in
    let after := dict_get arguments "after" in
    posts <- await (GetMediaPosts (Some account_id) (Some limit) (Some after))
                   (get_media_posts client (Some account_id) (Some limit) (Some after)) ;;
    succeed name (posts_data posts)
  else if name =? "get_media_insights" then
    media_id <- lift (dict_item arguments "media_id") ;;
    metrics <- lift (coerce_metrics (dict_get arguments "metrics")) ;;
    insights <- await (GetMediaInsights media_id (Some metrics))
                      (get_media_insights client media_id (Some metrics)) ;;
    succeed name (PDict [("media_id", media_id); ("insights", dicts insights)])
  else if name =? "publish_media" then
    let image := dict_get arguments "image_url" in
    let video := dict_get arguments "video_url" in
    if Bool.eqb (truthy image) (truthy video) then
      md <- tool_metadata name ;;
      ret (mk_result false PNone (Some exclusivity_message) md)
    else
      request <- new_request arguments ;;
      response <- await (PublishMedia request) (publish_media client request) ;;
      succeed name (PDict (dict response))
  else if name =? "get_account_pages" then
    pages <- await GetAccountPages (get_account_pages client) ;;
    succeed name (PDict [("pages", dicts pages);
                         ("count", PInt (Z.of_nat (length pages)))])
  else if name =? "get_account_insights" then
    let account_id := dict_get arguments "account_id" in
    let metrics := dict_get arguments "metrics" in
    period <- lift (coerce_period (py_repr deps)
                      (dict_get_default arguments "period" (PStr "day"))) ;;
    insights <- await (GetAccountInsights (Some account_id) (Some metrics) (Some period))
                      (get_account_insights client (Some account_id) (Some metrics)
                         (Some period)) ;;
    succeed name (PDict [("insights", dicts insights);
                         ("period", PStr (period_value period))])
  else if name =? "validate_access_token" then
    is_valid <- await ValidateAccessToken (validate_access_token client) ;;
    succeed name (PDict [("valid", PBool is_valid)])
  else
    ret (mk_result false PNone (Some ("Unknown tool: " ++ name)) []).

(** The two [except] clauses. *)
Definition on_tool_error (e : exn) : M MCPToolResult :=
  match e with
  | InstagramAPIError _ message code subcode =>
      ret (mk_result false PNone (Some ("Instagram API error: " ++ message))
             [("error_code", code); ("error_subcode", subcode)])
  | PyError _ _ =>
      ret (mk_result false PNone (Some ("Tool execution failed: " ++ exn_str e)) [])
  end.

(** [handle_call_tool(name, arguments)].  [_wrap] is total on the values
    modelled here, so it is applied once to the envelope that the [try]
    statement yields. *)
Definition handle_call_tool (name : string) (arguments : pydict)
  : M (list TextContent) :=
  client <- obtain_client ;;
  result <- try_except (dispatch client name arguments) on_tool_error ;;
  ret (_wrap result).

End Server.

(** ** String operations used by the prompt composer *)

(** The characters for which [str.isspace()] holds, among U+0000 to
    U+00FF. *)
Definition is_space (c : ascii) : bool :=
  let n := N_of_ascii c in
  (((9 <=? n) && (n <=? 13)) || ((28 <=? n) && (n <=? 32))
   || (n =? 133) || (n =? 160))%N.

(** [s.split()]: the maximal runs of characters that are not spaces. *)
Fixpoint split_from (current : string) (s : string) : list string :=
  match s with
  | EmptyString => if current =? "" then [] else [current]
  | String c s' =>
      if is_space c then
        if current =? "" then split_from "" s' else current :: split_from "" s'
      else split_from (current ++ String c "") s'
  end.

Definition split (s : string) : list string := split_from "" s.

(** [w.startswith("#")] *)
Definition starts_with_hash (w : string) : bool :=
  match w with
  | String c _ => Ascii.eqb c "#"
  | EmptyString => false
  end.

(** The characters that [int()] skips around a literal: the ASCII
    whitespace, and U+0085 and U+00A0, which the conversion first turns
    into spaces.  The separators U+001C to U+001F are not among them. *)
Definition is_int_space (c : ascii) : bool :=
  let n := N_of_ascii c in
  (((9 <=? n) && (n <=? 13)) || (n =? 32) || (n =? 133) || (n =? 160))%N.

Fixpoint int_lstrip (s : string) : string :=
  match s with
  | String c s' => if is_int_space c then int_lstrip s' else s
  | EmptyString => EmptyString
  end.

Fixpoint int_rstrip (s : string) : string :=
  match s with
  | String c s' =>
      match int_rstrip s' with
      | EmptyString => if is_int_space c then EmptyString else String c EmptyString
      | r => String c r
      end
  | EmptyString => EmptyString
  end.

Definition int_strip (s : string) : string := int_rstrip (int_lstrip s).

(** The scan of the digits of a literal: the run of digits and
    underscores, its value, the number of its digits and what follows it.
    Two underscores in a row, or an underscore at the end of the run, are
    a syntax error. *)
Fixpoint scan_digits (acc : Z) (count : nat) (after_underscore : bool) (s : string)
  : option (Z * nat * string) :=
  match s with
  | EmptyString => if after_underscore then None else Some (acc, count, EmptyString)
  | String c s' =>
      match digit_value c with
      | Some d => scan_digits (10 * acc + Z.of_N d) (S count) false s'
      | None =>
          if Ascii.eqb c "_" then
            if after_underscore then None else scan_digits acc count true s'
          else if after_underscore then None else Some (acc, count, s)
      end
  end.

(** The most digits that [int()] converts: the default of
    [sys.int_max_str_digits] in CPython 3.11 and later. *)
Definition int_max_str_digits : nat := 4300.

(** What [int()] makes of a string in base 10: its value, a refusal of
    its syntax, or a refusal of its length.  The length is checked once
    the digits are scanned, before what follows them is looked at. *)
Inductive literal : Type :=
| Literal (n : Z)
| NotLiteral
| OverLimit (digits : nat).

Definition read_unsigned (negative : bool) (body : string) : literal :=
  match body with
  | String "_" _ => NotLiteral
  | _ =>
      match scan_digits 0 0 false body with
      | None => NotLiteral
      | Some (v, count, rest) =>
          if Nat.ltb int_max_str_digits count then OverLimit count
          else if Nat.eqb count 0 || negb (rest =? EmptyString) then NotLiteral
          else Literal (if negative then - v else v)
      end
  end.

Definition read_int_literal (s : string) : literal :=
  match int_strip s with
  | String "-" body => read_unsigned true body
  | String "+" body => read_unsigned false body
  | body => read_unsigned false body
  end.

Fixpoint unlines (lines : list string) : string :=
  match lines with
  | [] => ""
  | l :: rest => l ++ String newline (unlines rest)
  end.

Section Composer.

Variable deps : Collaborators.

(** [str(v)], which is also how an f-string formats [v]. *)
Definition py_str (v : pyval) : string :=
  match v with
  | PNone => "None"
  | PBool true => "True"
  | PBool false => "False"
  | PInt n => string_of_Z n
  | PStr s => s
  | PObj _ s => s
  | _ => py_repr deps v
  end.

(** [int(v)] *)
Definition py_int (v : pyval) : res Z :=
  match v with
  | PInt n => Ret n
  | PBool b => Ret (if b then 1 else 0)%Z
  | PStr s =>
      match read_int_literal s with
      | Literal n => Ret n
      | NotLiteral =>
          Raise (PyError "ValueError"
                   ("invalid literal for int() with base 10: " ++ py_repr deps v))
      | OverLimit digits =>
          Raise (PyError "ValueError"
                   ("Exceeds the limit (4300 digits) for integer string conversion: value has "
                    ++ string_of_Z (Z.of_nat digits)
                    ++ " digits; use sys.set_int_max_str_digits() to increase the limit"))
      end
  | _ => Raise (PyError "TypeError"
                  ("int() argument must be a string, a bytes-like object or a real number, not '"
                   ++ type_name v ++ "'"))
  end.

(** ** The resource reader: [handle_read_resource] *)

Definition read_resource_body (client : InstagramClient) (uri : string) : M string :=
  if uri =? "instagram://profile" then
    profile <- await (GetProfileInfo None) (get_profile_info client None) ;;
    lift (json_dumps (PDict (dict profile)))
  else if uri =? "instagram://media/recent" then
    posts <- await (GetMediaPosts None (Some (PInt 10)) None)
                   (get_media_posts client None (Some (PInt 10)) None) ;;
    lift (json_dumps (PList (map (fun p => PDict (post_dict p)) posts)))
  else if uri =? "instagram://insights/account" then
    insights <- await (GetAccountInsights None None None)
                      (get_account_insights client None None None) ;;
    lift (json_dumps (dicts insights))
  else if uri =? "instagram://pages" then
    pages <- await GetAccountPages (get_account_pages client) ;;
    lift (json_dumps (dicts pages))
  else
    raise (PyError "ValueError" ("Unknown resource URI: " ++ uri)).

Definition error_document (message : string) : pyval :=
  PDict [("error", PStr message)].

Definition handle_read_resource (uri : string) : M string :=
  client <- obtain_client deps ;;
  try_except (read_resource_body client uri)
             (fun e => lift (json_dumps (error_document (exn_str e)))).

(** ** The prompt composer: [handle_get_prompt] *)

Definition has_caption (post : Post) : bool :=
  match caption post with
  | Some c => negb (c =? "")
  | None => false
  end.

Definition hashtags_of (post : Post) : list string :=
  match caption post with
  | Some c => filter starts_with_hash (split c)
  | None => []
  end.

Definition hashtag_entry (post : Post) : pyval :=
  PDict [("post_id", post_id post);
         ("hashtags", PList (map PStr (hashtags_of post)));
         ("likes", like_count post);
         ("comments", comments_count post)].

(** The loop [for post in posts: if post.caption: hashtags_data.append(...)],
    started from the list built so far. *)
Fixpoint collect_hashtags (hashtags_data : list pyval) (posts : list Post) : list pyval :=
  match posts with
  | [] => hashtags_data
  | post :: rest =>
      if has_caption post
      then collect_hashtags (hashtags_data ++ [hashtag_entry post]) rest
      else collect_hashtags hashtags_data rest
  end.

Definition engagement_prompt (media_id insights_json : string) : string :=
  unlines [""; "Analyze engagement for Instagram post " ++ media_id ++ ".";
           ""; "Insights:"; insights_json;
           ""; "Provide:"; "1) Overall performance";
           "2) Key metrics (reach, likes, comments, shares, saves, plays if applicable)";
           "3) Engagement rate & interpretation";
           "4) Recommendations for future posts";
           "5) Comparison with typical benchmarks"].

Definition strategy_prompt (focus_area time_period posts_json insights_json : string)
  : string :=
  unlines [""; "Create a content strategy focusing on " ++ focus_area
               ++ " over the next " ++ time_period ++ ".";
           ""; "Recent Posts:"; posts_json;
           ""; "Account Insights:"; insights_json;
           ""; "Include:"; "- Performance analysis"; "- Posting times & frequency";
           "- Content type recommendations"; "- Caption & hashtag strategy";
           "- Engagement tactics to improve " ++ focus_area;
           "- Action items for the next " ++ time_period].

Definition hashtag_prompt (post_count : Z) (data_json : string) : string :=
  unlines [""; "Analyze hashtag performance for the last " ++ string_of_Z post_count
               ++ " posts.";
           ""; "Data:"; data_json;
           ""; "Provide:"; "- Most frequent tags"; "- Correlation with engagement";
           "- Hashtag diversity"; "- Optimization recommendations";
           "- New tags to test"].

Definition get_prompt_body (client : InstagramClient) (name : string) (arguments : pydict)
  : M string :=
  if name =? "analyze_engagement" then
    let media_id := dict_get arguments "media_id" in
    if negb (truthy media_id) then
      ret "Error: media_id is required for engagement analysis"
    else
      insights <- await (GetMediaInsights media_id None)
                        (get_media_insights client media_id None) ;;
      insights_json <- lift (json_dumps (dicts insights)) ;;
      ret (engagement_prompt (py_str media_id) insights_json)
  else if name =? "content_strategy" then
    let focus_area := dict_get_default arguments "focus_area" (PStr "engagement") in
    let time_period := dict_get_default arguments "time_period" (PStr "week") in
    posts <- await (GetMediaPosts None (Some (PInt 20)) None)
                   (get_media_posts client None (Some (PInt 20)) None) ;;
    account_insights <- await (GetAccountInsights None None None)
                              (get_account_insights client None None None) ;;
    posts_json <- lift (json_dumps
                          (PList (map (fun p => PDict (post_dict p)) (firstn 5 posts)))) ;;
    insights_json <- lift (json_dumps (dicts account_insights)) ;;
    ret (strategy_prompt (py_str focus_area) (py_str time_period) posts_json insights_json)
  else if name =? "hashtag_analysis" then
    post_count <- lift (py_int (dict_get_default arguments "post_count" (PStr "10"))) ;;
    posts <- await (GetMediaPosts None (Some (PInt post_count)) None)
                   (get_media_posts client None (Some (PInt post_count)) None) ;;
    let hashtags_data := collect_hashtags [] posts in
    data_json <- lift (json_dumps (PList hashtags_data)) ;;
    ret (hashtag_prompt post_count data_json)
  else
    ret ("Error: Unknown prompt '" ++ name ++ "'").

Definition handle_get_prompt (name : string) (arguments : pydict) : M string :=
  client <- obtain_client deps ;;
  try_except (get_prompt_body client name arguments)
             (fun e => ret ("Error generating prompt: " ++ exn_str e)).

End Composer.

(** ** The resource and prompt catalogues *)

Record Resource : Type := mk_resource {
  resource_uri : string;
  resource_name : string;
  resource_description : string;
  mimeType : string
}.

Definition handle_list_resources : list Resource :=
  [ mk_resource "instagram://profile" "Instagram Profile"
      "Current Instagram business profile information" "application/json";
    mk_resource "instagram://media/recent" "Recent Media Posts"
      "Recent Instagram posts with engagement metrics" "application/json";
    mk_resource "instagram://insights/account" "Account Insights"
      "Account-level analytics and insights" "application/json";
    mk_resource "instagram://pages" "Connected Pages"
      "Facebook pages connected to the account" "application/json" ].

Definition recognized (uri : string) : bool :=
  mem_string uri (map resource_uri handle_list_resources).

Record PromptArgument : Type := mk_prompt_argument {
  argument_name : string;
  argument_description : string;
  required : bool
}.

Record Prompt : Type := mk_prompt {
  prompt_name : string;
  prompt_description : string;
  prompt_arguments : list PromptArgument
}.

Definition handle_list_prompts : list Prompt :=
  [ mk_prompt "analyze_engagement"
      "Analyze Instagram post engagement and provide insights"
      [ mk_prompt_argument "media_id" "Instagram media ID" true;
        mk_prompt_argument "comparison_period" "e.g., 'last_week'" false ];
    mk_prompt "content_strategy"
      "Generate content strategy recommendations based on account performance"
      [ mk_prompt_argument "focus_area" "engagement | reach | growth" false;
        mk_prompt_argument "time_period" "week | month" false ];
    mk_prompt "hashtag_analysis"
      "Analyze hashtag performance and suggest improvements"
      [ mk_prompt_argument "post_count" "How many recent posts" false ] ].

(** ** Observations on a run *)

Fixpoint api_calls (evs : list event) : list call :=
  match evs with
  | [] => []
  | ApiCall c :: rest => c :: api_calls rest
  | _ :: rest => api_calls rest
  end.

Fixpoint requests_built (evs : list event) : list pydict :=
  match evs with
  | [] => []
  | RequestBuilt a :: rest => a :: requests_built rest
  | _ :: rest => requests_built rest
  end.

Definition raised {A} (outcome : res A) : option exn :=
  match outcome with Ret _ => None | Raise e => Some e end.

(** The exception, if any, with which the client answers a call. *)
Definition client_exn (client : InstagramClient) (c : call) : option exn :=
  match c with
  | GetProfileInfo a => raised (get_profile_info client a)
  | GetMediaPosts a l f => raised (get_media_posts client a l f)
  | GetMediaInsights i m => raised (get_media_insights client i m)
  | PublishMedia r => raised (publish_media client r)
  | GetAccountPages => raised (get_account_pages client)
  | GetAccountInsights a m p => raised (get_account_insights client a m p)
  | ValidateAccessToken => raised (validate_access_token client)
  end.

(** The envelope of the [except] clauses. *)
Definition error_envelope (e : exn) : MCPToolResult :=
  match e with
  | InstagramAPIError _ message code subcode =>
      mk_result false PNone (Some ("Instagram API error: " ++ message))
        [("error_code", code); ("error_subcode", subcode)]
  | PyError _ _ => mk_result false PNone (Some ("Tool execution failed: " ++ exn_str e)) []
  end.

Definition stamped (deps : Collaborators) (name : string) (instant : nat) : pydict :=
  [("tool", PStr name); ("timestamp", PStr (isoformat (utc_clock deps instant)))].

(** A supplied argument is a key of the argument mapping. *)
Definition supplied (k : string) (arguments : pydict) : bool := has_key k arguments.

(** How a run from [w] to [w'] touched the API client: one call [c]
    answered within one instant, or no call at all. *)
Definition called (w w' : World) (c : call) : Prop :=
  instagram_client w' = instagram_client w /\
  now w' = S (now w) /\
  api_calls (events w') = (api_calls (events w) ++ [c])%list.

Definition quiet (w w' : World) : Prop :=
  instagram_client w' = instagram_client w /\
  now w' = now w /\
  api_calls (events w') = api_calls (events w).

(** The runs of the [try] statement of [handle_call_tool]: the envelope it
    yields and the world it leaves, by the path taken. *)
Inductive tool_run (deps : Collaborators) (client : InstagramClient)
          (name : string) (arguments : pydict) (w : World)
  : MCPToolResult -> World -> Prop :=
| run_success (c : call) (payload : pyval) (w' : World) :
    client_exn client c = None ->
    payload <> PNone ->
    called w w' c ->
    tool_run deps client name arguments w
             (mk_result true payload None (stamped deps name (now w'))) w'
| run_call_failed (c : call) (e : exn) (w' : World) :
    client_exn client c = Some e ->
    called w w' c ->
    tool_run deps client name arguments w (error_envelope e) w'
| run_rejected (e : exn) (w' : World) :
    quiet w w' ->
    tool_run deps client name arguments w (error_envelope e) w'
| run_exclusive :
    name = "publish_media" ->
    Bool.eqb (truthy (dict_get arguments "image_url"))
             (truthy (dict_get arguments "video_url")) = true ->
    tool_run deps client name arguments w
             (mk_result false PNone (Some exclusivity_message) (stamped deps name (now w))) w
| run_unknown :
    catalogued name = false ->
    tool_run deps client name arguments w
             (mk_result false PNone (Some ("Unknown tool: " ++ name)) []) w.

(** The client handle is there: either the process already holds it or
    its construction succeeds. *)
Definition client_obtained (deps : Collaborators) (w : World)
           (client : InstagramClient) (w0 : World) : Prop :=
  obtain_client deps w = (Ret client, w0).

(** The wall clock returns datetimes, and it does not run backwards. *)
Definition clock_valid (deps : Collaborators) : Prop :=
  forall i, valid_datetime (utc_clock deps i) = true.

Definition clock_monotone (deps : Collaborators) : Prop :=
  forall i j, i <= j -> dt_leb (utc_clock deps i) (utc_clock deps j) = true.

(** The values of [InsightPeriod]. *)
Definition period_values : list string := map period_value [DAY; WEEK; DAYS_28].

(** The [metrics] array holds a string that is not a value of
    [InsightMetric]; the [period] string is not a value of
    [InsightPeriod]. *)
Definition invalid_metric (deps : Collaborators) (arguments : pydict) : Prop :=
  exists l s,
    lookup "metrics" arguments = Some (PList l)
    /\ In (PStr s) l
    /\ mem_string s (InsightMetric_values deps) = false.

Definition invalid_period (arguments : pydict) : Prop :=
  exists s,
    lookup "period" arguments = Some (PStr s)
    /\ mem_string s period_values = false.


(** ** A test double

    Concrete collaborators on which the handlers can be run. *)
Module Stub.

Definition profile : Profile :=
  mk_object [("username", PStr "acme"); ("followers_count", PInt 1200)].

Definition tagged (i : string) (likes comments : Z) : Post :=
  mk_post (PStr i) (Some "Launch day #tag1 #tag2") (PInt likes) (PInt comments)
          [("id", PStr i); ("like_count", PInt likes)].

Definition untitled : Post :=
  mk_post (PStr "p3") None (PInt 5) (PInt 0) [("id", PStr "p3")].

Definition posts : list Post := [tagged "p1" 10 2; untitled; tagged "p2" 7 1].

Definition insight : Insight := mk_object [("name", PStr "reach"); ("value", PInt 99)].

Definition published : PublishResponse := mk_object [("id", PStr "m1")].

Definition client : InstagramClient :=
  mk_client (fun _ => Ret profile)
            (fun _ _ _ => Ret posts)
            (fun _ _ => Ret [insight])
            (fun _ => Ret published)
            (Ret [])
            (fun _ _ _ => Ret [insight])
            (Ret true).

(** A client whose every operation fails with a structured error. *)
Definition rate_limited : exn :=
  InstagramAPIError "rate limited (4)" "rate limited" (PInt 4) PNone.

Definition failing_client : InstagramClient :=
  mk_client (fun _ => Raise rate_limited)
            (fun _ _ _ => Raise rate_limited)
            (fun _ _ => Raise rate_limited)
            (fun _ => Raise rate_limited)
            (Raise rate_limited)
            (fun _ _ _ => Raise rate_limited)
            (Raise rate_limited).

Definition text_field (k : string) (arguments : pydict) : option string :=
  match lookup k arguments with
  | Some (PStr s) => Some s
  | _ => None
  end.

Definition accept (arguments : pydict) : res PublishMediaRequest :=
  Ret (mk_request (text_field "image_url" arguments) (text_field "video_url" arguments)
                  (text_field "caption" arguments) (text_field "location_id" arguments)).

Definition repr (v : pyval) : string :=
  match v with
  | PStr s => "'" ++ s ++ "'"
  | PInt n => string_of_Z n
  | PNone => "None"
  | _ => "<object>"
  end.

(** A clock that advances one second per instant within a minute. *)
Definition clock (instant : nat) : datetime :=
  mk_datetime 2024 5 17 10 30 (N.min (N.of_nat instant) 59) 0.

Definition deps : Collaborators :=
  mk_collaborators (Ret client) accept
    ["reach"; "likes"; "comments"; "shares"; "saves"; "plays";
     "profile_views"; "website_clicks"]
    repr clock.

Definition fresh : World := mk_world None 0 [].
Definition started : World := mk_world (Some client) 0 [].
Definition started_failing : World := mk_world (Some failing_client) 0 [].

End Stub.

(** ** Startup: [run]

    [run] constructs the client, validates the access token and enters the
    serve loop; [sys.exit(1)] raises [SystemExit], which the clause
    [except Exception] does not catch.  The logger calls leave no trace in
    the state modelled here. *)

Inductive startup : Type :=
| Exit (status : Z)
| Serve.

Definition run (deps : Collaborators) : M startup :=
  fun w =>
    match InstagramClient_init deps with
    | Raise e => (Raise e, log_event ClientBuilt w)
    | Ret client =>
        let w1 := mk_world (Some client) (now w) (events w ++ [ClientBuilt]) in
        match await ValidateAccessToken (validate_access_token client) w1 with
        | (Ret is_valid, w2) =>
            if negb is_valid then (Ret (Exit 1), w2) else (Ret Serve, w2)
        | (Raise _, w2) => (Ret (Exit 1), w2)
        end
    end.

(** ** A session of the serve loop

    The requests that the host sends while the server serves, each
    dispatched to its handler, one after the other, on the same process
    state. *)

Inductive request : Type :=
| CallTool (name : string) (arguments : pydict)
| ReadResource (uri : string)
| GetPrompt (name : string) (arguments : pydict).

Inductive response : Type :=
| ToolResponse (content : list TextContent)
| ResourceText (contents : string)
| PromptText (contents : string).

Definition handle (deps : Collaborators) (rq : request) : M response :=
  match rq with
  | CallTool name arguments =>
      bind (handle_call_tool deps name arguments) (fun c => ret (ToolResponse c))
  | ReadResource uri =>
      bind (handle_read_resource deps uri) (fun t => ret (ResourceText t))
  | GetPrompt name arguments =>
      bind (handle_get_prompt deps name arguments) (fun t => ret (PromptText t))
  end.

Fixpoint session (deps : Collaborators) (rqs : list request) : M (list response) :=
  match rqs with
  | [] => ret []
  | rq :: rest =>
      bind (handle deps rq) (fun r =>
      bind (session deps rest) (fun rs => ret (r :: rs)))
  end.

(** How many times [InstagramClient()] was evaluated. *)
Fixpoint clients_built (evs : list event) : nat :=
  match evs with
  | [] => 0
  | ClientBuilt :: rest => S (clients_built rest)
  | _ :: rest => clients_built rest
  end.

(** A computation that leaves the client handle alone and constructs no
    client. *)
Definition keeps_client {A} (m : M A) : Prop :=
  forall w out w',
    m w = (out, w') ->
    instagram_client w' = instagram_client w
    /\ clients_built (events w') = clients_built (events w).

(** A computation that leaves the call log as it is. *)
Definition calls_nothing {A} (m : M A) : Prop :=
  forall w out w', m w = (out, w') -> api_calls (events w') = api_calls (events w).

Definition prompt_listed (name : string) : bool :=
  mem_string name (map prompt_name handle_list_prompts).

(** The call that reading a recognized resource makes. *)
Definition resource_call (uri : string) : option call :=
  if uri =? "instagram://profile" then Some (GetProfileInfo None)
  else if uri =? "instagram://media/recent" then Some (GetMediaPosts None (Some (PInt 10)) None)
  else if uri =? "instagram://insights/account" then Some (GetAccountInsights None None None)
  else if uri =? "instagram://pages" then Some GetAccountPages
  else None.


(** No character of the string is a space in the sense of
    [str.isspace()]. *)
Definition has_no_space (s : string) : bool :=
  forallb (fun c => negb (is_space c)) (list_ascii_of_string s).

(** ** More test doubles *)
Module Double.

(** A client whose every operation fails on the network. *)
Definition timeout : exn := PyError "TimeoutError" "connection timed out".

Definition unreachable_client : InstagramClient :=
  mk_client (fun _ => Raise timeout)
            (fun _ _ _ => Raise timeout)
            (fun _ _ => Raise timeout)
            (fun _ => Raise timeout)
            (Raise timeout)
            (fun _ _ _ => Raise timeout)
            (Raise timeout).

Definition unreachable : World := mk_world (Some unreachable_client) 0 [].

(** A profile whose mapping holds a [datetime]. *)
Definition dated_profile : Profile :=
  mk_object [("username", PStr "acme");
             ("created", PObj "datetime" "2024-05-17 10:30:00")].

Definition dated_client : InstagramClient :=
  mk_client (fun _ => Ret dated_profile)
            (fun _ _ _ => Ret Stub.posts)
            (fun _ _ => Ret [Stub.insight])
            (fun _ => Ret Stub.published)
            (Ret [])
            (fun _ _ _ => Ret [Stub.insight])
            (Ret true).

Definition dated : World := mk_world (Some dated_client) 0 [].

(** A request constructor that validates nothing but refuses everything. *)
Definition refuse (arguments : pydict) : res PublishMediaRequest :=
  Raise (PyError "ValidationError" "1 validation error for PublishMediaRequest").

Definition strict_deps : Collaborators :=
  mk_collaborators (Ret Stub.client) refuse
    ["reach"; "likes"; "comments"; "shares"; "saves"; "plays"]
    Stub.repr Stub.clock.

(** Collaborators whose client cannot be constructed. *)
Definition no_token : exn := PyError "ValueError" "access token is missing".

Definition broken_deps : Collaborators :=
  mk_collaborators (Raise no_token) Stub.accept [] Stub.repr Stub.clock.

(** A client whose token is not valid. *)
Definition expired_client : InstagramClient :=
  mk_client (fun _ => Ret Stub.profile)
            (fun _ _ _ => Ret Stub.posts)
            (fun _ _ => Ret [Stub.insight])
            (fun _ => Ret Stub.published)
            (Ret [])
            (fun _ _ _ => Ret [Stub.insight])
            (Ret false).

Definition expired_deps : Collaborators :=
  mk_collaborators (Ret expired_client) Stub.accept [] Stub.repr Stub.clock.

End Double.

(** * Properties *)

(** ** Strings and JSON text *)

Lemma append_assoc (a b c : string) : (a ++ b) ++ c = a ++ (b ++ c).
Proof.
  induction a as [|x a IH]; simpl; [reflexivity | now rewrite IH].
Qed.

(** Reading back one escaped character. *)
Lemma read_string_escape_char (c : ascii) (tail : string) :
  read_string (escape_char c ++ tail) = cons_char c (read_string tail).
Proof.
  destruct c as [[] [] [] [] [] [] [] []]; reflexivity.
Qed.

(** A string literal written by the encoder is read back as the string. *)
Lemma read_string_escape_string (s rest : string) :
  read_string (escape_string s ++ String dquote rest) = Some (s, rest).
Proof.
  induction s as [|c s IH]; simpl.
  - reflexivity.
  - rewrite append_assoc, read_string_escape_char, IH. reflexivity.
Qed.

Lemma error_document_text (k message : string) :
  json_text 0 (PDict [(k, PStr message)]) =
  String "{" (String newline (String " " (String " " (String dquote
    (escape_string k ++ String dquote (String ":" (String " " (String dquote
      (escape_string message ++ String dquote (String newline "}")))))))))).
Proof.
  simpl. unfold json_string. simpl.
  repeat (rewrite append_assoc; simpl). reflexivity.
Qed.

(** The text of a one-key document whose value is a string parses back to
    that document. *)
Lemma json_loads_one_key (k message : string) :
  json_loads (json_text 0 (PDict [(k, PStr message)])) = Some (PDict [(k, PStr message)]).
Proof.
  rewrite error_document_text. unfold json_loads.
  simpl. rewrite read_string_escape_string.
  simpl. rewrite read_string_escape_string.
  reflexivity.
Qed.

(** ** Timestamps *)

Lemma digit_value_digit_char (d : N) :
  (d < 10)%N -> digit_value (digit_char d) = Some d.
Proof.
  intros H.
  assert (E : (d = 0 \/ d = 1 \/ d = 2 \/ d = 3 \/ d = 4 \/ d = 5 \/ d = 6 \/ d = 7
               \/ d = 8 \/ d = 9)%N) by lia.
  repeat (destruct E as [E | E]; [subst d; reflexivity |]).
  subst d; reflexivity.
Qed.

Lemma pow10_succ (w : nat) : (10 ^ N.of_nat (S w) = 10 ^ N.of_nat w * 10)%N.
Proof.
  rewrite Nat2N.inj_succ, N.pow_succ_r by lia. lia.
Qed.

Lemma pow10_pos (w : nat) : (10 ^ N.of_nat w <> 0)%N.
Proof. apply N.pow_nonzero. discriminate. Qed.

(** Reading [width] digits consumes exactly what [zero_pad] wrote. *)
Lemma read_digits_zero_pad (width : nat) (n acc : N) (rest : string) :
  read_digits width acc (zero_pad width n ++ rest)
  = Some (acc * 10 ^ N.of_nat width + n mod 10 ^ N.of_nat width, rest)%N.
Proof.
  revert acc. induction width as [|w IH]; intros acc.
  - simpl. rewrite N.mod_1_r. f_equal. f_equal. lia.
  - cbn [zero_pad read_digits String.append].
    rewrite digit_value_digit_char by (apply N.mod_lt; discriminate).
    rewrite IH, pow10_succ.
    rewrite (N.Div0.mod_mul_r n (10 ^ N.of_nat w) 10).
    f_equal. f_equal. lia.
Qed.

Lemma read_field_zero_pad (width : nat) (n : N) (rest : string) :
  (n < 10 ^ N.of_nat width)%N ->
  read_field width (zero_pad width n ++ rest) = Some (n, rest).
Proof.
  intros H. unfold read_field. rewrite read_digits_zero_pad.
  rewrite N.mod_small by assumption. reflexivity.
Qed.

Lemma append_empty (s : string) : s ++ "" = s.
Proof.
  induction s as [|c s IH]; simpl; [reflexivity | now rewrite IH].
Qed.

Lemma read_fraction_isoformat (us : N) :
  (us < 1000000)%N ->
  read_fraction (if (us =? 0)%N then "" else "." ++ zero_pad 6 us) = Some us.
Proof.
  intros H. destruct (N.eqb_spec us 0) as [E | E].
  - subst us. reflexivity.
  - cbn [String.append read_fraction Ascii.eqb Bool.eqb].
    rewrite <- (append_empty (zero_pad 6 us)).
    rewrite read_field_zero_pad by (simpl; lia). reflexivity.
Qed.

(** What [isoformat] writes is a valid ISO-8601 timestamp, and it reads
    back as the datetime it was written from. *)
Lemma parse_iso8601_isoformat (d : datetime) :
  valid_datetime d = true -> parse_iso8601 (isoformat d) = Some d.
Proof.
  intros V. pose proof V as V'.
  unfold valid_datetime in V'.
  repeat (apply andb_prop in V'; destruct V' as [V' ?]).
  repeat match goal with
         | H : (_ <=? _)%N = true |- _ => apply N.leb_le in H
         | H : (_ <? _)%N = true |- _ => apply N.ltb_lt in H
         end.
  assert (Hd : (day d < 100)%N).
  { assert ((days_in_month (year d) (month d) <= 31)%N).
    { unfold days_in_month.
      destruct (month d) as [|[[[[]|[]|]|[[]|[]|]|]|[[[]|[]|]|[[]|[]|]|]|]];
        try destruct (is_leap _); lia. }
    lia. }
  unfold parse_iso8601, isoformat.
  rewrite read_field_zero_pad by (simpl; lia).
  cbn [bind_opt String.append read_char Ascii.eqb Bool.eqb].
  rewrite read_field_zero_pad by (simpl; lia).
  cbn [bind_opt String.append read_char Ascii.eqb Bool.eqb].
  rewrite read_field_zero_pad by (simpl; lia).
  cbn [bind_opt String.append read_char Ascii.eqb Bool.eqb].
  rewrite read_field_zero_pad by (simpl; lia).
  cbn [bind_opt String.append read_char Ascii.eqb Bool.eqb].
  rewrite read_field_zero_pad by (simpl; lia).
  cbn [bind_opt String.append read_char Ascii.eqb Bool.eqb].
  rewrite read_field_zero_pad by (simpl; lia).
  cbn [bind_opt].
  rewrite read_fraction_isoformat by assumption.
  cbn [bind_opt].
  destruct d; simpl in *. rewrite V. reflexivity.
Qed.

Lemma lex_leb_refl (a : list N) : lex_leb a a = true.
Proof.
  induction a as [|x a IH]; simpl; [reflexivity |].
  rewrite N.ltb_irrefl. assumption.
Qed.

Lemma dt_leb_refl (d : datetime) : dt_leb d d = true.
Proof. apply lex_leb_refl. Qed.

(** ** The handler monad and the event log *)

Lemma api_calls_app (a b : list event) :
  api_calls (a ++ b) = (api_calls a ++ api_calls b)%list.
Proof.
  induction a as [|[| |c] a IH]; simpl; auto. now rewrite IH.
Qed.

Lemma requests_built_app (a b : list event) :
  requests_built (a ++ b) = (requests_built a ++ requests_built b)%list.
Proof.
  induction a as [|[| |c] a IH]; simpl; auto. now rewrite IH.
Qed.

Lemma on_tool_error_envelope (e : exn) (w : World) :
  on_tool_error e w = (Ret (error_envelope e), w).
Proof. destruct e; reflexivity. Qed.

Lemma quiet_refl (w : World) : quiet w w.
Proof. repeat split. Qed.

Lemma called_await (w : World) (c : call) :
  called w (mk_world (instagram_client w) (S (now w)) (events w ++ [ApiCall c])) c.
Proof.
  repeat split. simpl. now rewrite api_calls_app.
Qed.

Lemma called_after_request (w : World) (a : pydict) (c : call) :
  called w (mk_world (instagram_client w) (S (now w))
                     ((events w ++ [RequestBuilt a]) ++ [ApiCall c])) c.
Proof.
  repeat split. simpl. rewrite !api_calls_app. simpl. now rewrite app_nil_r.
Qed.

Lemma quiet_after_request (w : World) (a : pydict) :
  quiet w (mk_world (instagram_client w) (now w) (events w ++ [RequestBuilt a])).
Proof.
  repeat split. simpl. rewrite api_calls_app. simpl. now rewrite app_nil_r.
Qed.

Lemma obtain_client_quiet (deps : Collaborators) (w w0 : World) (client : InstagramClient) :
  client_obtained deps w client w0 ->
  now w0 = now w /\ api_calls (events w0) = api_calls (events w)
  /\ requests_built (events w0) = requests_built (events w)
  /\ instagram_client w0 = Some client.
Proof.
  unfold client_obtained, obtain_client. intros H.
  destruct (instagram_client w) as [c |] eqn:Hc.
  - inversion H; subst. auto.
  - destruct (InstagramClient_init deps) as [c | e]; inversion H; subst; simpl.
    rewrite api_calls_app, requests_built_app. simpl.
    rewrite !app_nil_r. auto.
Qed.

(** The handle is obtained exactly when the process holds it or its
    construction succeeds. *)
Lemma client_obtained_cases (deps : Collaborators) (w w0 : World)
      (client : InstagramClient) :
  client_obtained deps w client w0 <->
  (instagram_client w = Some client /\ w0 = w)
  \/ (instagram_client w = None /\ InstagramClient_init deps = Ret client
      /\ w0 = mk_world (Some client) (now w) (events w ++ [ClientBuilt])).
Proof.
  unfold client_obtained, obtain_client. split.
  - destruct (instagram_client w) as [c |].
    + intros E; inversion E; subst. auto.
    + destruct (InstagramClient_init deps) as [c | e]; intros E; inversion E; subst.
      right. auto.
  - intros [[-> ->] | (-> & -> & ->)]; reflexivity.
Qed.

(** The statement that obtains the handle stands before the [try]: when
    the process holds no handle and the construction fails, the exception
    leaves the handler. *)
Lemma client_construction_failure_propagates (deps : Collaborators) (name : string)
      (arguments : pydict) (w : World) (e : exn) :
  instagram_client w = None ->
  InstagramClient_init deps = Raise e ->
  handle_call_tool deps name arguments w = (Raise e, log_event ClientBuilt w).
Proof.
  intros Hw He. unfold handle_call_tool, bind, obtain_client. rewrite Hw, He. reflexivity.
Qed.

Arguments isoformat : simpl never.

(** One step of a symbolic run: case analysis on an innermost scrutinee. *)
Ltac run_step :=
  match goal with
  | |- context [match ?x with _ => _ end] =>
      lazymatch x with
      | context [match _ with _ => _ end] => fail
      | _ => destruct x eqn:?
      end
  end.

Ltac run_all :=
  unfold bind, await, succeed, tool_metadata, utcnow, new_request, lift, ret, log_event;
  simpl; repeat (run_step; simpl).

Lemma raised_ret {A} (o : res A) (a : A) : o = Ret a -> raised o = None.
Proof. now intros ->. Qed.

Lemma raised_raise {A} (o : res A) (e : exn) : o = Raise e -> raised o = Some e.
Proof. now intros ->. Qed.

Ltac run_close :=
  rewrite ?on_tool_error_envelope;
  do 2 eexists; split; [reflexivity |];
  lazymatch goal with
  | |- tool_run ?d ?cl ?n ?a ?w _ ?w' =>
      first
        [ refine (@run_success d cl n a w _ _ w' _ _ _);
          [ | discriminate | first [apply called_await | apply called_after_request] ];
          simpl; eapply raised_ret; eassumption
        | refine (@run_call_failed d cl n a w _ _ w' _ _);
          [ | first [apply called_await | apply called_after_request] ];
          simpl; eapply raised_raise; eassumption
        | apply run_rejected; first [apply quiet_refl | apply quiet_after_request] ]
  end.

(** Every run of the [try] statement yields an envelope, along one of
    the paths of [tool_run]. *)
Lemma dispatch_run (deps : Collaborators) (client : InstagramClient)
      (name : string) (arguments : pydict) (w : World) :
  exists r w',
    try_except (dispatch deps client name arguments) on_tool_error w = (Ret r, w')
    /\ tool_run deps client name arguments w r w'.
Proof.
  unfold try_except, dispatch.
  destruct (name =? "get_profile_info") eqn:E1.
  { run_all; run_close. }
  destruct (name =? "get_media_posts") eqn:E2.
  { run_all; run_close. }
  destruct (name =? "get_media_insights") eqn:E3.
  { run_all; run_close. }
  destruct (name =? "publish_media") eqn:E4.
  { run_all. all: try run_close.
    do 2 eexists; split; [reflexivity |].
    apply run_exclusive; [now apply String.eqb_eq | assumption]. }
  destruct (name =? "get_account_pages") eqn:E5.
  { run_all; run_close. }
  destruct (name =? "get_account_insights") eqn:E6.
  { run_all; run_close. }
  destruct (name =? "validate_access_token") eqn:E7.
  { run_all; run_close. }
  simpl. do 2 eexists; split; [reflexivity |].
  apply run_unknown. unfold catalogued, mem_string. simpl.
  rewrite E1, E2, E3, E4, E5, E6, E7. reflexivity.
Qed.

(** ** The dispatcher *)

Lemma handle_call_tool_run (deps : Collaborators) (name : string) (arguments : pydict)
      (w w0 : World) (client : InstagramClient) :
  client_obtained deps w client w0 ->
  exists r w1,
    handle_call_tool deps name arguments w = (Ret (_wrap r), w1)
    /\ try_except (dispatch deps client name arguments) on_tool_error w0 = (Ret r, w1)
    /\ tool_run deps client name arguments w0 r w1.
Proof.
  intros H. destruct (dispatch_run deps client name arguments w0) as (r & w1 & Hr & Hrun).
  exists r, w1. split; [| split; assumption].
  unfold handle_call_tool, bind. unfold client_obtained in H. rewrite H, Hr. reflexivity.
Qed.

Lemma error_envelope_fails (e : exn) :
  success (error_envelope e) = false
  /\ data (error_envelope e) = PNone
  /\ error (error_envelope e) <> None.
Proof. destruct e; simpl; repeat split; discriminate. Qed.

Lemma app_singleton_neq {A} (l : list A) (x : A) : l <> (l ++ [x])%list.
Proof.
  intros H. apply (f_equal (@length A)) in H. rewrite length_app in H. simpl in H. lia.
Qed.

(** On a path that called the client, the call is the only new entry of
    the call log. *)
Lemma called_unique (w w' : World) (c c' : call) :
  called w w' c ->
  api_calls (events w') = (api_calls (events w) ++ [c'])%list -> c = c'.
Proof.
  intros (_ & _ & H) H'. rewrite H in H'.
  apply app_inj_tail in H'. tauto.
Qed.

Lemma quiet_not_called (w w' : World) (c : call) :
  quiet w w' -> api_calls (events w') <> (api_calls (events w) ++ [c])%list.
Proof.
  intros (_ & _ & H). rewrite H. apply app_singleton_neq.
Qed.

(** The paths of [tool_run], as a case analysis. *)
Lemma tool_run_cases (deps : Collaborators) (client : InstagramClient) (name : string)
      (arguments : pydict) (w w' : World) (r : MCPToolResult) :
  tool_run deps client name arguments w r w' ->
  (exists c payload,
      client_exn client c = None /\ payload <> PNone /\ called w w' c
      /\ r = mk_result true payload None (stamped deps name (now w')))
  \/ (exists c e, client_exn client c = Some e /\ called w w' c /\ r = error_envelope e)
  \/ (exists e, quiet w w' /\ r = error_envelope e)
  \/ (name = "publish_media" /\ w' = w
      /\ r = mk_result false PNone (Some exclusivity_message) (stamped deps name (now w)))
  \/ (catalogued name = false /\ w' = w
      /\ r = mk_result false PNone (Some ("Unknown tool: " ++ name)) []).
Proof.
  destruct 1.
  - left. eauto 10.
  - right; left. eauto 10.
  - right; right; left. eauto.
  - right; right; right; left. auto.
  - right; right; right; right. auto.
Qed.

(** C1, as amended: when the process holds the client handle, or the
    construction of the client succeeds, [handle_call_tool] returns an
    envelope for every tool name and every argument mapping and never
    raises.  An exception raised inside the [try] statement becomes an
    envelope with [success=false], and an envelope reports success exactly
    when one call was made on the API client and the client answered it. *)
Theorem call_tool_never_raises (deps : Collaborators) (name : string)
        (arguments : pydict) (w w0 : World) (client : InstagramClient) :
  client_obtained deps w client w0 ->
  exists r w1,
    handle_call_tool deps name arguments w = (Ret (_wrap r), w1)
    /\ (forall e w', dispatch deps client name arguments w0 = (Raise e, w') ->
                     success r = false /\ error r <> None)
    /\ (success r = true <->
        exists c, api_calls (events w1) = (api_calls (events w) ++ [c])%list
                  /\ client_exn client c = None).
Proof.
  intros H.
  destruct (handle_call_tool_run name arguments H) as (r & w1 & Hh & Htry & Hrun).
  destruct (obtain_client_quiet H) as (_ & Hcalls & _).
  exists r, w1. split; [assumption |]. split.
  - intros e w' He. unfold try_except in Htry. rewrite He in Htry.
    rewrite on_tool_error_envelope in Htry. inversion Htry; subst.
    destruct (error_envelope_fails e) as (? & _ & ?). auto.
  - rewrite <- Hcalls.
    destruct (tool_run_cases Hrun)
      as [(c & payload & Hexn & _ & Hcall & ->)
         | [(c & e & Hexn & Hcall & ->)
           | [(e & Hq & ->) | [(_ & -> & ->) | (_ & -> & ->)]]]];
      (split; [intros Hs | intros (c' & Hc' & Hexn')]).
    + exists c. split; [apply Hcall | assumption].
    + reflexivity.
    + destruct (error_envelope_fails e) as (Hf & _). congruence.
    + rewrite <- (@called_unique _ _ _ _ Hcall Hc') in Hexn'. congruence.
    + destruct (error_envelope_fails e) as (Hf & _). congruence.
    + exfalso. eapply quiet_not_called; eassumption.
    + discriminate.
    + exfalso. eapply app_singleton_neq; eassumption.
    + discriminate.
    + exfalso. eapply app_singleton_neq; eassumption.
Qed.

Lemma stub_client_obtained :
  client_obtained Stub.deps Stub.fresh Stub.client
                  (mk_world (Some Stub.client) 0 [ClientBuilt]).
Proof. reflexivity. Qed.

Lemma call_tool_never_raises_witness :
  client_obtained Stub.deps Stub.fresh Stub.client
                  (mk_world (Some Stub.client) 0 [ClientBuilt])
  /\ exists r w1,
      handle_call_tool Stub.deps "get_media_insights"
                       [("metrics", PList [PStr "reach"; PStr "bogus"])] Stub.fresh
      = (Ret (_wrap r), w1)
      /\ (forall e w',
             dispatch Stub.deps Stub.client "get_media_insights"
                      [("metrics", PList [PStr "reach"; PStr "bogus"])]
                      (mk_world (Some Stub.client) 0 [ClientBuilt]) = (Raise e, w') ->
             success r = false /\ error r <> None)
      /\ (success r = true <->
          exists c, api_calls (events w1) = (api_calls (events Stub.fresh) ++ [c])%list
                    /\ client_exn Stub.client c = None).
Proof.
  split; [reflexivity |].
  apply (@call_tool_never_raises Stub.deps "get_media_insights"
           [("metrics", PList [PStr "reach"; PStr "bogus"])] Stub.fresh
           (mk_world (Some Stub.client) 0 [ClientBuilt]) Stub.client).
  reflexivity.
Defined.

(** C1, as stated, fails.  The statement that constructs the client stands
    before the [try] statement: in a process that holds no handle, with a
    client whose constructor raises, the invocation returns no envelope;
    the exception of the constructor leaves the handler. *)
Lemma call_tool_raises_counterexample :
  instagram_client Stub.fresh = None
  /\ InstagramClient_init Double.broken_deps = Raise Double.no_token
  /\ handle_call_tool Double.broken_deps "get_profile_info" [] Stub.fresh
     = (Raise Double.no_token, mk_world None 0 [ClientBuilt])
  /\ ~ (exists r w1,
          handle_call_tool Double.broken_deps "get_profile_info" [] Stub.fresh
          = (Ret (_wrap r), w1)).
Proof.
  split; [reflexivity |]. split; [reflexivity |].
  assert (Hrun : handle_call_tool Double.broken_deps "get_profile_info" [] Stub.fresh
                 = (Raise Double.no_token, mk_world None 0 [ClientBuilt])).
  { exact (@client_construction_failure_propagates Double.broken_deps "get_profile_info" []
             Stub.fresh Double.no_token eq_refl eq_refl). }
  split; [exact Hrun |].
  intros (r & w1 & H). rewrite Hrun in H. discriminate H.
Qed.

Lemma stub_clock_valid : clock_valid Stub.deps.
Proof.
  intros i. unfold valid_datetime. simpl. rewrite andb_true_r.
  apply N.ltb_lt. lia.
Qed.

Lemma stub_clock_monotone : clock_monotone Stub.deps.
Proof.
  intros i j Hij. unfold dt_leb. simpl.
  destruct (N.ltb_spec (N.min (N.of_nat i) 59) (N.min (N.of_nat j) 59)); [reflexivity |].
  destruct (N.ltb_spec (N.min (N.of_nat j) 59) (N.min (N.of_nat i) 59)); [lia | reflexivity].
Qed.

Lemma lookup_tool_stamped (deps : Collaborators) (name : string) (i : nat) :
  lookup "tool" (stamped deps name i) = Some (PStr name)
  /\ lookup "timestamp" (stamped deps name i)
     = Some (PStr (isoformat (utc_clock deps i))).
Proof. split; reflexivity. Qed.

(** C3: every envelope has its payload populated exactly when it reports
    success and its error text exactly when it reports failure; on a
    successful envelope the metadata names the invoked tool and carries a
    timestamp that reads as a valid ISO-8601 datetime, not earlier than
    the clock reading at the start of the call. *)
Theorem envelope_invariant (deps : Collaborators) (name : string)
        (arguments : pydict) (w w0 : World) (client : InstagramClient) :
  clock_valid deps ->
  clock_monotone deps ->
  client_obtained deps w client w0 ->
  exists r w1,
    handle_call_tool deps name arguments w = (Ret (_wrap r), w1)
    /\ (data r <> PNone <-> success r = true)
    /\ (error r <> None <-> success r = false)
    /\ (success r = true ->
        lookup "tool" (metadata r) = Some (PStr name)
        /\ exists stamp t,
            lookup "timestamp" (metadata r) = Some (PStr stamp)
            /\ parse_iso8601 stamp = Some t
            /\ dt_leb (utc_clock deps (now w)) t = true).
Proof.
  intros Hvalid Hmono H.
  destruct (handle_call_tool_run name arguments H) as (r & w1 & Hh & _ & Hrun).
  destruct (obtain_client_quiet H) as (Hnow & _).
  exists r, w1. split; [assumption |].
  destruct (tool_run_cases Hrun)
    as [(c & payload & Hexn & Hpay & Hcall & ->)
       | [(c & e & Hexn & Hcall & ->)
         | [(e & Hq & ->) | [(_ & -> & ->) | (_ & -> & ->)]]]].
  - simpl. repeat split; try tauto; try congruence.
    exists (isoformat (utc_clock deps (now w1))), (utc_clock deps (now w1)).
    split; [reflexivity |]. split.
    + apply parse_iso8601_isoformat, Hvalid.
    + apply Hmono. destruct Hcall as (_ & Hn & _). lia.
  - destruct (error_envelope_fails e) as (Hs & Hd & He).
    rewrite Hs, Hd. repeat split; try tauto; try congruence; discriminate.
  - destruct (error_envelope_fails e) as (Hs & Hd & He).
    rewrite Hs, Hd. repeat split; try tauto; try congruence; discriminate.
  - simpl. repeat split; try tauto; try congruence; discriminate.
  - simpl. repeat split; try tauto; try congruence; discriminate.
Qed.

Lemma envelope_invariant_witness :
  clock_valid Stub.deps /\ clock_monotone Stub.deps
  /\ client_obtained Stub.deps Stub.started Stub.client Stub.started
  /\ exists r w1,
      handle_call_tool Stub.deps "get_profile_info" [] Stub.started = (Ret (_wrap r), w1)
      /\ (data r <> PNone <-> success r = true)
      /\ (error r <> None <-> success r = false)
      /\ (success r = true ->
          lookup "tool" (metadata r) = Some (PStr "get_profile_info")
          /\ exists stamp t,
              lookup "timestamp" (metadata r) = Some (PStr stamp)
              /\ parse_iso8601 stamp = Some t
              /\ dt_leb (utc_clock Stub.deps (now Stub.started)) t = true).
Proof.
  split; [exact stub_clock_valid |].
  split; [exact stub_clock_monotone |].
  split; [reflexivity |].
  apply (@envelope_invariant Stub.deps "get_profile_info" [] Stub.started Stub.started
           Stub.client stub_clock_valid stub_clock_monotone).
  reflexivity.
Defined.

(** C4: when the call made on the API client fails with a structured
    upstream error, the envelope reports failure, its error text embeds
    the upstream message, and its metadata holds the upstream error code
    and subcode and nothing else: neither a tool name nor a timestamp. *)
Theorem upstream_error_envelope (deps : Collaborators) (name : string)
        (arguments : pydict) (w w0 w1 : World) (client : InstagramClient)
        (out : res (list TextContent)) (c : call)
        (text message : string) (code subcode : pyval) :
  client_obtained deps w client w0 ->
  handle_call_tool deps name arguments w = (out, w1) ->
  api_calls (events w1) = (api_calls (events w) ++ [c])%list ->
  client_exn client c = Some (InstagramAPIError text message code subcode) ->
  exists r,
    out = Ret (_wrap r)
    /\ success r = false
    /\ data r = PNone
    /\ error r = Some ("Instagram API error: " ++ message)
    /\ metadata r = [("error_code", code); ("error_subcode", subcode)]
    /\ lookup "tool" (metadata r) = None
    /\ lookup "timestamp" (metadata r) = None.
Proof.
  intros H Hout Hcalls Hexn.
  destruct (handle_call_tool_run name arguments H) as (r & w1' & Hh & _ & Hrun).
  destruct (obtain_client_quiet H) as (_ & Hc0 & _).
  rewrite Hh in Hout. inversion Hout; subst. rewrite <- Hc0 in Hcalls.
  exists r. split; [reflexivity |].
  destruct (tool_run_cases Hrun)
    as [(c' & payload & Hexn' & _ & Hcall & ->)
       | [(c' & e & Hexn' & Hcall & ->)
         | [(e & Hq & ->) | [(_ & -> & ->) | (_ & -> & ->)]]]].
  - rewrite (@called_unique _ _ _ _ Hcall Hcalls) in Hexn'. congruence.
  - rewrite (@called_unique _ _ _ _ Hcall Hcalls) in Hexn'.
    assert (e = InstagramAPIError text message code subcode) by congruence.
    subst e. simpl. repeat split.
  - exfalso. eapply quiet_not_called; eassumption.
  - exfalso. eapply app_singleton_neq; eassumption.
  - exfalso. eapply app_singleton_neq; eassumption.
Qed.

Lemma upstream_error_envelope_witness :
  client_obtained Stub.deps Stub.started_failing Stub.failing_client Stub.started_failing
  /\ handle_call_tool Stub.deps "get_account_pages" [] Stub.started_failing
     = (Ret (_wrap (error_envelope Stub.rate_limited)),
        mk_world (Some Stub.failing_client) 1 [ApiCall GetAccountPages])
  /\ exists r,
      Ret (_wrap (error_envelope Stub.rate_limited)) = Ret (_wrap r)
      /\ success r = false
      /\ data r = PNone
      /\ error r = Some ("Instagram API error: " ++ "rate limited")
      /\ metadata r = [("error_code", PInt 4); ("error_subcode", PNone)]
      /\ lookup "tool" (metadata r) = None
      /\ lookup "timestamp" (metadata r) = None.
Proof.
  split; [reflexivity |]. split; [reflexivity |].
  apply (@upstream_error_envelope Stub.deps "get_account_pages" [] Stub.started_failing
           Stub.started_failing
           (mk_world (Some Stub.failing_client) 1 [ApiCall GetAccountPages])
           Stub.failing_client _ GetAccountPages "rate limited (4)" "rate limited"
           (PInt 4) PNone); reflexivity.
Defined.

(** The catalogue lists seven tools, under distinct names. *)
Example catalogue_has_seven_tools :
  length handle_list_tools = 7 /\ NoDup (map tool_name handle_list_tools).
Proof.
  split; [reflexivity |].
  repeat (constructor; [simpl; intuition discriminate |]). constructor.
Qed.

(** C6: a name outside the catalogue of seven tools yields the failure
    envelope whose error text is "Unknown tool: " followed by the name and
    whose metadata is empty; the client is not called. *)
Theorem unknown_tool_envelope (deps : Collaborators) (name : string)
        (arguments : pydict) (w w0 : World) (client : InstagramClient) :
  client_obtained deps w client w0 ->
  catalogued name = false ->
  handle_call_tool deps name arguments w
  = (Ret (_wrap (mk_result false PNone (Some ("Unknown tool: " ++ name)) [])), w0).
Proof.
  intros H Hc. unfold catalogued, mem_string in Hc. simpl in Hc.
  repeat (apply orb_false_elim in Hc; destruct Hc as [? Hc]).
  unfold handle_call_tool, bind. unfold client_obtained in H. rewrite H.
  unfold try_except, dispatch.
  repeat match goal with E : (name =? _) = false |- _ => rewrite E; clear E end.
  reflexivity.
Qed.

Lemma unknown_tool_envelope_witness :
  client_obtained Stub.deps Stub.started Stub.client Stub.started
  /\ catalogued "delete_media" = false
  /\ handle_call_tool Stub.deps "delete_media" [("media_id", PStr "m1")] Stub.started
     = (Ret (_wrap (mk_result false PNone (Some ("Unknown tool: " ++ "delete_media")) [])),
        Stub.started).
Proof.
  split; [reflexivity |]. split; [reflexivity |].
  apply (@unknown_tool_envelope Stub.deps "delete_media" [("media_id", PStr "m1")]
           Stub.started Stub.started Stub.client); reflexivity.
Defined.

(** ** [publish_media]: the exclusivity check *)

(** The check fires exactly on equal truthiness, before anything else
    happens. *)
Lemma exclusivity_check_fires (deps : Collaborators) (arguments : pydict)
      (w w0 : World) (client : InstagramClient) :
  client_obtained deps w client w0 ->
  Bool.eqb (truthy (dict_get arguments "image_url"))
           (truthy (dict_get arguments "video_url")) = true ->
  handle_call_tool deps "publish_media" arguments w
  = (Ret (_wrap (mk_result false PNone (Some exclusivity_message)
                           (stamped deps "publish_media" (now w)))), w0)
  /\ api_calls (events w0) = api_calls (events w)
  /\ requests_built (events w0) = requests_built (events w).
Proof.
  intros H Hx. destruct (obtain_client_quiet H) as (Hnow & Hcalls & Hreq & _).
  split; [| split; assumption].
  unfold handle_call_tool, bind. unfold client_obtained in H. rewrite H.
  unfold try_except, dispatch. simpl. rewrite Hx.
  unfold tool_metadata, utcnow, bind, ret, stamped. simpl. rewrite Hnow. reflexivity.
Qed.

(** Unequal truthiness passes the check: the request is constructed from
    the arguments and, once constructed, handed to the API client. *)
Lemma exclusivity_check_passes (deps : Collaborators) (arguments : pydict)
      (w w0 : World) (client : InstagramClient) :
  client_obtained deps w client w0 ->
  Bool.eqb (truthy (dict_get arguments "image_url"))
           (truthy (dict_get arguments "video_url")) = false ->
  exists out w1,
    handle_call_tool deps "publish_media" arguments w = (out, w1)
    /\ requests_built (events w1) = (requests_built (events w) ++ [arguments])%list
    /\ forall request,
        PublishMediaRequest_init deps arguments = Ret request ->
        api_calls (events w1) = (api_calls (events w) ++ [PublishMedia request])%list.
Proof.
  intros H Hx. destruct (obtain_client_quiet H) as (Hnow & Hcalls & Hreq & _).
  unfold handle_call_tool, bind. unfold client_obtained in H. rewrite H.
  unfold try_except, dispatch. simpl. rewrite Hx.
  unfold new_request, bind, await, log_event. simpl.
  destruct (PublishMediaRequest_init deps arguments) as [request | e] eqn:Hinit.
  - destruct (publish_media client request) as [response | e];
      [unfold succeed, tool_metadata, utcnow, bind, ret; simpl
      | rewrite ?on_tool_error_envelope; simpl];
      (eexists; eexists; split; [reflexivity |]); simpl;
      rewrite ?requests_built_app, ?api_calls_app, Hreq, Hcalls; simpl;
      rewrite ?app_nil_r; (split; [reflexivity |]);
      intros request' Hr'; inversion Hr'; subst; reflexivity.
  - rewrite ?on_tool_error_envelope. simpl.
    eexists; eexists; split; [reflexivity |]. simpl.
    rewrite ?requests_built_app, Hreq. simpl.
    split; [reflexivity |]. intros request' Hr'. discriminate.
Qed.

(** C2, as amended: when [image_url] and [video_url] are both truthy or
    both falsy (absent, [None] or empty), [publish_media] yields the
    failure envelope with the fixed exclusivity message, calls the API
    client zero times and constructs no [PublishMediaRequest]. *)
Theorem exclusivity_violation (deps : Collaborators) (arguments : pydict)
        (w w0 : World) (client : InstagramClient) :
  client_obtained deps w client w0 ->
  Bool.eqb (truthy (dict_get arguments "image_url"))
           (truthy (dict_get arguments "video_url")) = true ->
  handle_call_tool deps "publish_media" arguments w
  = (Ret (_wrap (mk_result false PNone (Some exclusivity_message)
                           (stamped deps "publish_media" (now w)))), w0)
  /\ api_calls (events w0) = api_calls (events w)
  /\ requests_built (events w0) = requests_built (events w).
Proof.
  intros H Hx. exact (@exclusivity_check_fires deps arguments w w0 client H Hx).
Qed.

Lemma exclusivity_violation_witness :
  client_obtained Stub.deps Stub.started Stub.client Stub.started
  /\ Bool.eqb (truthy (dict_get [("caption", PStr "hello")] "image_url"))
              (truthy (dict_get [("caption", PStr "hello")] "video_url")) = true
  /\ handle_call_tool Stub.deps "publish_media" [("caption", PStr "hello")] Stub.started
     = (Ret (_wrap (mk_result false PNone (Some exclusivity_message)
                              (stamped Stub.deps "publish_media" (now Stub.started)))),
        Stub.started)
  /\ api_calls (events Stub.started) = api_calls (events Stub.started)
  /\ requests_built (events Stub.started) = requests_built (events Stub.started).
Proof.
  split; [reflexivity |]. split; [reflexivity |].
  apply (@exclusivity_violation Stub.deps [("caption", PStr "hello")] Stub.started
           Stub.started Stub.client); reflexivity.
Defined.

(** C2, as stated, fails.  With [image_url] supplied as the empty string
    and [video_url] supplied as a URL, both are supplied; yet, whatever the
    collaborators, the invocation does not end in the exclusivity failure
    without a [PublishMediaRequest] being constructed: the check passes
    and the request is constructed from the arguments. *)
Lemma exclusivity_by_presence_counterexample :
  let arguments := [("image_url", PStr ""); ("video_url", PStr "http://v")] in
  supplied "image_url" arguments = true
  /\ supplied "video_url" arguments = true
  /\ forall (deps : Collaborators) (w w0 : World) (client : InstagramClient),
      client_obtained deps w client w0 ->
      ~ (exists r w1,
            handle_call_tool deps "publish_media" arguments w = (Ret (_wrap r), w1)
            /\ success r = false
            /\ error r = Some exclusivity_message
            /\ api_calls (events w1) = api_calls (events w)
            /\ requests_built (events w1) = requests_built (events w)).
Proof.
  intros arguments. split; [reflexivity |]. split; [reflexivity |].
  intros deps w w0 client H (r & w1 & Hrun & _ & _ & _ & Hreq).
  destruct (@exclusivity_check_passes deps arguments w w0 client H eq_refl)
    as (out & w1' & Hrun' & Hreq' & _).
  rewrite Hrun in Hrun'. inversion Hrun'; subst w1'.
  rewrite Hreq in Hreq'. eapply app_singleton_neq; eassumption.
Qed.

(** On the test double, that invocation publishes the video. *)
Example empty_image_url_is_published :
  api_calls (events (snd (handle_call_tool Stub.deps "publish_media"
                            [("image_url", PStr ""); ("video_url", PStr "http://v")]
                            Stub.started)))
  = [PublishMedia (mk_request (Some "") (Some "http://v") None None)].
Proof. vm_compute. reflexivity. Qed.

(** C10: the check tests truthiness, not key presence.  When one of the
    two URLs is supplied as the empty string, a non-empty other URL passes
    the check: the request is constructed from the arguments and, once
    constructed, handed to the API client.  When the other URL is the
    empty string as well, the exclusivity failure envelope is returned. *)
Theorem exclusivity_tests_truthiness (deps : Collaborators) (arguments : pydict)
        (w w0 : World) (client : InstagramClient) (empty other v : string) :
  client_obtained deps w client w0 ->
  (empty = "image_url" /\ other = "video_url")
  \/ (empty = "video_url" /\ other = "image_url") ->
  lookup empty arguments = Some (PStr "") ->
  lookup other arguments = Some (PStr v) ->
  exists out w1,
    handle_call_tool deps "publish_media" arguments w = (out, w1)
    /\ if v =? "" then
         out = Ret (_wrap (mk_result false PNone (Some exclusivity_message)
                                    (stamped deps "publish_media" (now w))))
         /\ api_calls (events w1) = api_calls (events w)
         /\ requests_built (events w1) = requests_built (events w)
       else
         requests_built (events w1) = (requests_built (events w) ++ [arguments])%list
         /\ forall request,
             PublishMediaRequest_init deps arguments = Ret request ->
             api_calls (events w1) = (api_calls (events w) ++ [PublishMedia request])%list.
Proof.
  intros H Hkeys Hempty Hother.
  destruct (obtain_client_quiet H) as (Hnow & Hcalls & Hreq & _).
  assert (Hx : Bool.eqb (truthy (dict_get arguments "image_url"))
                        (truthy (dict_get arguments "video_url"))
               = (v =? "")).
  { unfold dict_get.
    destruct Hkeys as [[-> ->] | [-> ->]]; rewrite Hempty, Hother; simpl;
      destruct (v =? ""); reflexivity. }
  destruct (v =? "") eqn:Hv.
  - destruct (@exclusivity_check_fires deps arguments w w0 client H Hx) as (Hh & ? & ?).
    eexists; eexists; split; [exact Hh |]. auto.
  - exact (@exclusivity_check_passes deps arguments w w0 client H Hx).
Qed.

Lemma exclusivity_tests_truthiness_witness :
  let arguments := [("image_url", PStr ""); ("video_url", PStr "http://v")] in
  client_obtained Stub.deps Stub.started Stub.client Stub.started
  /\ lookup "image_url" arguments = Some (PStr "")
  /\ lookup "video_url" arguments = Some (PStr "http://v")
  /\ exists out w1,
      handle_call_tool Stub.deps "publish_media" arguments Stub.started = (out, w1)
      /\ requests_built (events w1)
         = (requests_built (events Stub.started) ++ [arguments])%list
      /\ forall request,
          PublishMediaRequest_init Stub.deps arguments = Ret request ->
          api_calls (events w1)
          = (api_calls (events Stub.started) ++ [PublishMedia request])%list.
Proof.
  intros arguments.
  split; [reflexivity |]. split; [reflexivity |]. split; [reflexivity |].
  apply (@exclusivity_tests_truthiness Stub.deps arguments Stub.started Stub.started
           Stub.client "image_url" "video_url" "http://v");
    [reflexivity | left; split; reflexivity | reflexivity | reflexivity].
Defined.

(** Both URLs supplied as empty strings: the exclusivity failure. *)
Example both_empty_urls_rejected :
  handle_call_tool Stub.deps "publish_media"
                   [("image_url", PStr ""); ("video_url", PStr "")] Stub.started
  = (Ret (_wrap (mk_result false PNone (Some exclusivity_message)
                           (stamped Stub.deps "publish_media" 0))), Stub.started).
Proof. reflexivity. Qed.

(** ** Enumeration arguments *)

Lemma map_res_invalid_metric (values : list string) (repr : pyval -> string)
      (l : list pyval) (s : string) :
  In (PStr s) l -> mem_string s values = false ->
  exists e, map_res (coerce_metric values repr) l = Raise e.
Proof.
  intros Hin Hs. induction l as [|x l IH]; [contradiction |].
  simpl. destruct Hin as [-> | Hin].
  - simpl. rewrite Hs. eauto.
  - destruct (coerce_metric values repr x) as [m | e]; [| eauto].
    destruct (IH Hin) as (e & ->). eauto.
Qed.

Lemma coerce_metrics_invalid (deps : Collaborators) (l : list pyval) (s : string) :
  In (PStr s) l -> mem_string s (InsightMetric_values deps) = false ->
  exists e, coerce_metrics deps (PList l) = Raise e.
Proof.
  intros Hin Hs. unfold coerce_metrics.
  destruct (@map_res_invalid_metric (InsightMetric_values deps) (py_repr deps) l s Hin Hs)
    as (e & He).
  destruct l as [| x l']; [contradiction |].
  simpl truthy. cbn iota. unfold py_iter. rewrite He. eauto.
Qed.

Lemma coerce_period_invalid (repr : pyval -> string) (s : string) :
  mem_string s period_values = false ->
  exists e, coerce_period repr (PStr s) = Raise e.
Proof.
  unfold mem_string, period_values. simpl. intros H.
  repeat (apply orb_false_elim in H; destruct H as [? H]).
  unfold coerce_period.
  repeat match goal with E : (s =? _) = false |- _ => rewrite E; clear E end.
  eauto.
Qed.

(** C5: a [get_media_insights] invocation whose [metrics] array holds a
    string outside [InsightMetric], and a [get_account_insights]
    invocation whose [period] string is outside [InsightPeriod], yield a
    failure envelope, and no call is made on the API client. *)
Theorem invalid_enum_fails_before_api (deps : Collaborators) (name : string)
        (arguments : pydict) (w w0 : World) (client : InstagramClient) :
  client_obtained deps w client w0 ->
  (name = "get_media_insights" /\ invalid_metric deps arguments)
  \/ (name = "get_account_insights" /\ invalid_period arguments) ->
  exists r,
    handle_call_tool deps name arguments w = (Ret (_wrap r), w0)
    /\ success r = false
    /\ error r <> None
    /\ api_calls (events w0) = api_calls (events w).
Proof.
  intros H Hinv. destruct (obtain_client_quiet H) as (_ & Hcalls & _).
  unfold handle_call_tool, bind. unfold client_obtained in H. rewrite H.
  unfold try_except, dispatch.
  destruct Hinv as [[-> (l & s & Hl & Hin & Hs)] | [-> (s & Hp & Hs)]]; simpl.
  - unfold lift, bind, dict_item.
    destruct (lookup "media_id" arguments) as [media_id |].
    + unfold dict_get. rewrite Hl.
      destruct (@coerce_metrics_invalid deps l s Hin Hs) as (e & ->).
      rewrite on_tool_error_envelope.
      destruct (error_envelope_fails e) as (? & _ & ?).
      exists (error_envelope e). unfold ret. auto.
    + rewrite on_tool_error_envelope. unfold ret. eexists.
      split; [reflexivity |]. simpl. repeat split; auto. discriminate.
  - unfold lift, bind, dict_get_default. rewrite Hp.
    destruct (@coerce_period_invalid (py_repr deps) s Hs) as (e & ->).
    rewrite on_tool_error_envelope.
    destruct (error_envelope_fails e) as (? & _ & ?).
    exists (error_envelope e). unfold ret. auto.
Qed.

Lemma invalid_enum_fails_before_api_witness :
  let arguments := [("media_id", PStr "m1");
                    ("metrics", PList [PStr "reach"; PStr "bogus"])] in
  client_obtained Stub.deps Stub.started Stub.client Stub.started
  /\ invalid_metric Stub.deps arguments
  /\ exists r,
      handle_call_tool Stub.deps "get_media_insights" arguments Stub.started
      = (Ret (_wrap r), Stub.started)
      /\ success r = false
      /\ error r <> None
      /\ api_calls (events Stub.started) = api_calls (events Stub.started).
Proof.
  intros arguments.
  assert (Hbad : invalid_metric Stub.deps arguments).
  { exists [PStr "reach"; PStr "bogus"], "bogus".
    split; [reflexivity |]. split; [right; left; reflexivity | reflexivity]. }
  split; [reflexivity |]. split; [exact Hbad |].
  apply (@invalid_enum_fails_before_api Stub.deps "get_media_insights" arguments
           Stub.started Stub.started Stub.client);
    [reflexivity | left; split; [reflexivity | exact Hbad]].
Defined.

(** The same for a period outside the enumeration. *)
Example bogus_period_rejected :
  exists r,
    handle_call_tool Stub.deps "get_account_insights" [("period", PStr "month")]
                     Stub.started = (Ret (_wrap r), Stub.started)
    /\ success r = false.
Proof. eexists. split; reflexivity. Qed.

(** C9: without a [period] argument, [get_account_insights] calls the API
    client once, with the period [day]; when the client answers, the
    payload of the envelope reports the period value "day". *)
Theorem account_insights_default_period (deps : Collaborators) (arguments : pydict)
        (w w0 : World) (client : InstagramClient) :
  client_obtained deps w client w0 ->
  lookup "period" arguments = None ->
  let account_id := dict_get arguments "account_id" in
  let metrics := dict_get arguments "metrics" in
  exists out w1,
    handle_call_tool deps "get_account_insights" arguments w = (out, w1)
    /\ api_calls (events w1)
       = (api_calls (events w)
            ++ [GetAccountInsights (Some account_id) (Some metrics) (Some DAY)])%list
    /\ forall insights,
        get_account_insights client (Some account_id) (Some metrics) (Some DAY)
        = Ret insights ->
        exists r,
          out = Ret (_wrap r)
          /\ success r = true
          /\ data r = PDict [("insights", dicts insights); ("period", PStr "day")].
Proof.
  intros H Hp account_id metrics.
  destruct (obtain_client_quiet H) as (_ & Hcalls & _).
  unfold handle_call_tool, bind. unfold client_obtained in H. rewrite H.
  unfold try_except, dispatch. simpl.
  unfold lift, bind, dict_get_default. rewrite Hp. simpl.
  unfold await. fold account_id metrics.
  destruct (get_account_insights client (Some account_id) (Some metrics) (Some DAY))
    as [insights | e].
  - unfold succeed, tool_metadata, utcnow, bind, ret. simpl.
    eexists; eexists; split; [reflexivity |]. simpl.
    rewrite api_calls_app, Hcalls. simpl. split; [reflexivity |].
    intros insights' Hi. inversion Hi; subst. eexists. repeat split.
  - rewrite on_tool_error_envelope.
    eexists; eexists; split; [reflexivity |]. simpl.
    rewrite api_calls_app, Hcalls. simpl. split; [reflexivity |].
    intros insights' Hi. discriminate.
Qed.

Lemma account_insights_default_period_witness :
  client_obtained Stub.deps Stub.started Stub.client Stub.started
  /\ lookup "period" [("account_id", PStr "17841400000000000")] = None
  /\ exists out w1,
      handle_call_tool Stub.deps "get_account_insights"
                       [("account_id", PStr "17841400000000000")] Stub.started = (out, w1)
      /\ api_calls (events w1)
         = (api_calls (events Stub.started)
              ++ [GetAccountInsights (Some (PStr "17841400000000000")) (Some PNone)
                                     (Some DAY)])%list
      /\ forall insights,
          get_account_insights Stub.client (Some (PStr "17841400000000000")) (Some PNone)
                               (Some DAY) = Ret insights ->
          exists r,
            out = Ret (_wrap r)
            /\ success r = true
            /\ data r = PDict [("insights", dicts insights); ("period", PStr "day")].
Proof.
  split; [reflexivity |]. split; [reflexivity |].
  apply (@account_insights_default_period Stub.deps
           [("account_id", PStr "17841400000000000")] Stub.started Stub.started
           Stub.client); reflexivity.
Defined.

(** ** The resource reader *)

Lemma json_dumps_error_document (message : string) :
  json_dumps (error_document message) = Ret (json_text 0 (error_document message)).
Proof. reflexivity. Qed.

Lemma recognized_cases (uri : string) :
  recognized uri
  = ((uri =? "instagram://profile") || ((uri =? "instagram://media/recent")
     || ((uri =? "instagram://insights/account") || ((uri =? "instagram://pages")
     || false)))).
Proof. reflexivity. Qed.

Lemma await_lift_cases {A} (client : InstagramClient) (c : call) (o : res A)
      (k : A -> res string) (w w' : World) (out : res string) :
  client_exn client c = raised o ->
  bind (await c o) (fun a => lift (k a)) w = (out, w') ->
  called w w' c /\ forall e, client_exn client c = Some e -> out = Raise e.
Proof.
  intros Hc Hrun. unfold bind, await, lift in Hrun.
  destruct o as [a | e0]; inversion Hrun; subst; (split; [apply called_await |]);
    rewrite Hc; simpl; intros e He; congruence.
Qed.

(** The paths of the [try] block of [handle_read_resource]: an
    unrecognized URI raises at once; a recognized one makes one call on
    the client, and the client's exception, if any, is what is raised. *)
Lemma read_resource_body_cases (client : InstagramClient) (uri : string)
      (w w' : World) (out : res string) :
  read_resource_body client uri w = (out, w') ->
  (recognized uri = false
   /\ out = Raise (PyError "ValueError" ("Unknown resource URI: " ++ uri))
   /\ w' = w)
  \/ (recognized uri = true
      /\ exists c, called w w' c
                   /\ forall e, client_exn client c = Some e -> out = Raise e).
Proof.
  rewrite recognized_cases. unfold read_resource_body.
  destruct (uri =? "instagram://profile") eqn:E1.
  { intros Hrun. right. split; [reflexivity |]. eexists.
    eapply await_lift_cases; [| exact Hrun]. reflexivity. }
  destruct (uri =? "instagram://media/recent") eqn:E2.
  { intros Hrun. right. split; [reflexivity |]. eexists.
    eapply await_lift_cases; [| exact Hrun]. reflexivity. }
  destruct (uri =? "instagram://insights/account") eqn:E3.
  { intros Hrun. right. split; [reflexivity |]. eexists.
    eapply await_lift_cases; [| exact Hrun]. reflexivity. }
  destruct (uri =? "instagram://pages") eqn:E4.
  { intros Hrun. right. split; [reflexivity |]. eexists.
    eapply await_lift_cases; [| exact Hrun]. reflexivity. }
  intros Hrun. left. unfold raise in Hrun. inversion Hrun; subst. auto.
Qed.

(** When the process holds no handle and the construction of the client
    fails, the exception leaves the resource reader as well. *)
Lemma read_resource_construction_failure_propagates (deps : Collaborators) (uri : string)
      (w : World) (e : exn) :
  instagram_client w = None ->
  InstagramClient_init deps = Raise e ->
  handle_read_resource deps uri w = (Raise e, log_event ClientBuilt w).
Proof.
  intros Hw He. unfold handle_read_resource, bind, obtain_client. rewrite Hw, He.
  reflexivity.
Qed.

(** C7, as amended: when the process holds the client handle, or the
    construction of the client succeeds, [handle_read_resource] returns a
    text for every URI and every outcome of the API client and never raises.
    Whenever the [try] block fails (an unrecognized URI, an exception
    raised by the client, a payload the encoder rejects), the text parses
    as a JSON object with the single key "error", whose value is the text
    of the failure. *)
Theorem read_resource_never_raises (deps : Collaborators) (uri : string)
        (w w0 : World) (client : InstagramClient) :
  client_obtained deps w client w0 ->
  exists text w1,
    handle_read_resource deps uri w = (Ret text, w1)
    /\ (forall e w', read_resource_body client uri w0 = (Raise e, w') ->
                     json_loads text = Some (PDict [("error", PStr (exn_str e))]))
    /\ (recognized uri = false ->
        json_loads text
        = Some (PDict [("error", PStr ("Unknown resource URI: " ++ uri))])
        /\ api_calls (events w1) = api_calls (events w))
    /\ (forall c e,
           api_calls (events w1) = (api_calls (events w) ++ [c])%list ->
           client_exn client c = Some e ->
           json_loads text = Some (PDict [("error", PStr (exn_str e))])).
Proof.
  intros H. destruct (obtain_client_quiet H) as (_ & Hcalls & _).
  unfold handle_read_resource, bind. unfold client_obtained in H. rewrite H.
  unfold try_except.
  destruct (read_resource_body client uri w0) as [[text | e] w1] eqn:Hbody;
    destruct (read_resource_body_cases _ _ _ Hbody)
      as [(Hrec & Hout & ->) | (Hrec & c & Hcall & Hraise)];
    try discriminate.
  - (* the body returned a text *)
    exists text, w1. split; [reflexivity |]. split; [discriminate |]. split.
    + congruence.
    + intros c' e Hc' He. rewrite <- Hcalls in Hc'.
      rewrite <- (@called_unique _ _ _ _ Hcall Hc') in He.
      specialize (Hraise e He). discriminate.
  - (* unrecognized URI *)
    inversion Hout; subst e. unfold lift. rewrite json_dumps_error_document.
    eexists; eexists; split; [reflexivity |]. split; [| split].
    + intros e w' He. inversion He; subst. apply json_loads_one_key.
    + intros _. split; [apply json_loads_one_key | assumption].
    + intros c e Hc _. exfalso. rewrite <- Hcalls in Hc.
      eapply app_singleton_neq; eassumption.
  - (* the body raised after calling the client *)
    unfold lift. rewrite json_dumps_error_document.
    eexists; eexists; split; [reflexivity |]. split; [| split].
    + intros e' w' He. inversion He; subst. apply json_loads_one_key.
    + congruence.
    + intros c' e' Hc' He'. rewrite <- Hcalls in Hc'.
      rewrite <- (@called_unique _ _ _ _ Hcall Hc') in He'.
      specialize (Hraise e' He'). inversion Hraise; subst. apply json_loads_one_key.
Qed.

Lemma read_resource_never_raises_witness :
  client_obtained Stub.deps Stub.started_failing Stub.failing_client Stub.started_failing
  /\ exists text w1,
      handle_read_resource Stub.deps "instagram://pages" Stub.started_failing
      = (Ret text, w1)
      /\ (forall e w',
             read_resource_body Stub.failing_client "instagram://pages"
                                Stub.started_failing = (Raise e, w') ->
             json_loads text = Some (PDict [("error", PStr (exn_str e))]))
      /\ (recognized "instagram://pages" = false ->
          json_loads text
          = Some (PDict [("error", PStr ("Unknown resource URI: " ++ "instagram://pages"))])
          /\ api_calls (events w1) = api_calls (events Stub.started_failing))
      /\ (forall c e,
             api_calls (events w1)
             = (api_calls (events Stub.started_failing) ++ [c])%list ->
             client_exn Stub.failing_client c = Some e ->
             json_loads text = Some (PDict [("error", PStr (exn_str e))])).
Proof.
  split; [reflexivity |].
  apply (@read_resource_never_raises Stub.deps "instagram://pages" Stub.started_failing
           Stub.started_failing Stub.failing_client).
  reflexivity.
Defined.

(** C7, as stated, fails.  In a process that holds no handle, with a client
    whose constructor raises, reading a resource returns no text: the
    constructor is called before the [try] statement and its exception
    leaves the handler. *)
Lemma read_resource_raises_counterexample :
  instagram_client Stub.fresh = None
  /\ InstagramClient_init Double.broken_deps = Raise Double.no_token
  /\ handle_read_resource Double.broken_deps "instagram://pages" Stub.fresh
     = (Raise Double.no_token, mk_world None 0 [ClientBuilt])
  /\ ~ (exists text w1,
          handle_read_resource Double.broken_deps "instagram://pages" Stub.fresh
          = (Ret text, w1)).
Proof.
  split; [reflexivity |]. split; [reflexivity |].
  assert (Hrun : handle_read_resource Double.broken_deps "instagram://pages" Stub.fresh
                 = (Raise Double.no_token, mk_world None 0 [ClientBuilt])).
  { exact (@read_resource_construction_failure_propagates Double.broken_deps
             "instagram://pages" Stub.fresh Double.no_token eq_refl eq_refl). }
  split; [exact Hrun |].
  intros (text & w1 & H). rewrite Hrun in H. discriminate H.
Qed.

(** The spec's scenario: the client fails while [instagram://pages] is
    read, and the text is a JSON object with the single key "error". *)
Example read_pages_client_fails :
  exists text w1,
    handle_read_resource Stub.deps "instagram://pages" Stub.started_failing
    = (Ret text, w1)
    /\ json_loads text = Some (PDict [("error", PStr "rate limited (4)")]).
Proof. eexists; eexists; split; [reflexivity | vm_compute; reflexivity]. Qed.

(** ** The prompt composer *)

(** The loop appends one entry per post that has a caption, in order. *)
Lemma collect_hashtags_filter (acc : list pyval) (posts : list Post) :
  collect_hashtags acc posts
  = (acc ++ map hashtag_entry (filter has_caption posts))%list.
Proof.
  revert acc. induction posts as [|p posts IH]; intros acc; simpl.
  - now rewrite app_nil_r.
  - destruct (has_caption p); simpl.
    + rewrite IH, <- app_assoc. reflexivity.
    + apply IH.
Qed.


Lemma get_prompt_body_hashtag_analysis (deps : Collaborators) (client : InstagramClient)
      (arguments : pydict) :
  get_prompt_body deps client "hashtag_analysis" arguments
  = bind (lift (py_int deps (dict_get_default arguments "post_count" (PStr "10"))))
         (fun post_count =>
            bind (await (GetMediaPosts None (Some (PInt post_count)) None)
                        (get_media_posts client None (Some (PInt post_count)) None))
                 (fun posts =>
                    bind (lift (json_dumps (PList (collect_hashtags [] posts))))
                         (fun data_json => ret (hashtag_prompt post_count data_json)))).
Proof. reflexivity. Qed.

(** *** What [split] yields *)





(** *** What [int()] makes of a string of digits *)







(** [int()] skips ASCII whitespace around a literal and takes single
    underscores between digits. *)
Example int_reads_padded_literal :
  read_int_literal (String "009"%char " -1_000 ") = Literal (-1000)%Z.
Proof. reflexivity. Qed.

(** U+001C separates tokens for [split()], but [int()] does not skip it. *)
Example int_rejects_file_separator :
  read_int_literal (String "028"%char "5") = NotLiteral
  /\ split (String "028"%char "5") = ["5"].
Proof. split; reflexivity. Qed.

Example int_rejects_malformed_literals :
  map read_int_literal [""; "_1"; "1_"; "1__0"; "- 5"; "12x"; "+"; "ten"]
  = repeat NotLiteral 8.
Proof. reflexivity. Qed.

(** A literal of more than 4300 digits is refused for its length. *)
Example int_rejects_long_literal :
  read_int_literal (string_of_list_ascii (repeat "1"%char 4301)) = OverLimit 4301.
Proof. vm_compute. reflexivity. Qed.








(** The spec's scenario: three posts, two captioned with [#tag1 #tag2] and
    one without a caption, give two entries, each with both tags and with
    the counts of its post. *)
Example three_posts_two_entries :
  collect_hashtags [] Stub.posts
  = [ PDict [("post_id", PStr "p1");
             ("hashtags", PList [PStr "#tag1"; PStr "#tag2"]);
             ("likes", PInt 10); ("comments", PInt 2)];
      PDict [("post_id", PStr "p2");
             ("hashtags", PList [PStr "#tag1"; PStr "#tag2"]);
             ("likes", PInt 7); ("comments", PInt 1)] ].
Proof. reflexivity. Qed.

(** * Further properties of the handlers *)

(** ** The dispatcher: calls and failures *)

(** X1: one invocation makes at most one call on the API client: there is
    no retry and no second operation, whatever the tool and the outcome. *)
Theorem call_tool_at_most_one_call (deps : Collaborators) (name : string)
        (arguments : pydict) (w w0 w1 : World) (client : InstagramClient)
        (out : res (list TextContent)) :
  client_obtained deps w client w0 ->
  handle_call_tool deps name arguments w = (out, w1) ->
  (api_calls (events w1) = api_calls (events w) /\ now w1 = now w)
  \/ (exists c, api_calls (events w1) = (api_calls (events w) ++ [c])%list
                /\ now w1 = S (now w)).
Proof.
  intros H Hout.
  destruct (handle_call_tool_run name arguments H) as (r & w1' & Hh & _ & Hrun).
  destruct (obtain_client_quiet H) as (Hnow & Hcalls & _).
  rewrite Hh in Hout. inversion Hout; subst. rewrite <- Hcalls, <- Hnow.
  destruct (tool_run_cases Hrun)
    as [(c & payload & _ & _ & Hcall & _)
       | [(c & e & _ & Hcall & _)
         | [(e & Hq & _) | [(_ & -> & _) | (_ & -> & _)]]]].
  - right. exists c. destruct Hcall as (_ & ? & ?). auto.
  - right. exists c. destruct Hcall as (_ & ? & ?). auto.
  - left. destruct Hq as (_ & ? & ?). auto.
  - left. auto.
  - left. auto.
Qed.

Lemma call_tool_at_most_one_call_witness :
  client_obtained Stub.deps Stub.started Stub.client Stub.started
  /\ ((api_calls (events (snd (handle_call_tool Stub.deps "get_account_pages" []
                                                 Stub.started)))
       = api_calls (events Stub.started)
       /\ now (snd (handle_call_tool Stub.deps "get_account_pages" [] Stub.started))
          = now Stub.started)
      \/ exists c,
          api_calls (events (snd (handle_call_tool Stub.deps "get_account_pages" []
                                                   Stub.started)))
          = (api_calls (events Stub.started) ++ [c])%list
          /\ now (snd (handle_call_tool Stub.deps "get_account_pages" [] Stub.started))
             = S (now Stub.started)).
Proof.
  split; [reflexivity |].
  apply (@call_tool_at_most_one_call Stub.deps "get_account_pages" [] Stub.started
           Stub.started _ Stub.client
           (fst (handle_call_tool Stub.deps "get_account_pages" [] Stub.started)));
    [reflexivity | apply surjective_pairing].
Defined.

(** X2: when the call made on the API client fails with any exception
    other than the structured upstream error, the envelope reports
    failure with the text "Tool execution failed: " followed by the text
    of the exception, and its metadata is empty. *)
Theorem unexpected_error_envelope (deps : Collaborators) (name : string)
        (arguments : pydict) (w w0 w1 : World) (client : InstagramClient)
        (out : res (list TextContent)) (c : call) (cls msg : string) :
  client_obtained deps w client w0 ->
  handle_call_tool deps name arguments w = (out, w1) ->
  api_calls (events w1) = (api_calls (events w) ++ [c])%list ->
  client_exn client c = Some (PyError cls msg) ->
  out = Ret (_wrap (mk_result false PNone (Some ("Tool execution failed: " ++ msg)) [])).
Proof.
  intros H Hout Hcalls Hexn.
  destruct (handle_call_tool_run name arguments H) as (r & w1' & Hh & _ & Hrun).
  destruct (obtain_client_quiet H) as (_ & Hc0 & _).
  rewrite Hh in Hout. inversion Hout; subst. rewrite <- Hc0 in Hcalls.
  destruct (tool_run_cases Hrun)
    as [(c' & payload & Hexn' & _ & Hcall & ->)
       | [(c' & e & Hexn' & Hcall & ->)
         | [(e & Hq & ->) | [(_ & -> & ->) | (_ & -> & ->)]]]].
  - rewrite (@called_unique _ _ _ _ Hcall Hcalls) in Hexn'. congruence.
  - rewrite (@called_unique _ _ _ _ Hcall Hcalls) in Hexn'.
    assert (e = PyError cls msg) by congruence. subst e. reflexivity.
  - exfalso. eapply quiet_not_called; eassumption.
  - exfalso. eapply app_singleton_neq; eassumption.
  - exfalso. eapply app_singleton_neq; eassumption.
Qed.

Lemma unexpected_error_envelope_witness :
  client_obtained Stub.deps Double.unreachable Double.unreachable_client Double.unreachable
  /\ handle_call_tool Stub.deps "validate_access_token" [] Double.unreachable
     = (Ret (_wrap (error_envelope Double.timeout)),
        mk_world (Some Double.unreachable_client) 1 [ApiCall ValidateAccessToken])
  /\ Ret (_wrap (error_envelope Double.timeout))
     = Ret (_wrap (mk_result false PNone
                             (Some ("Tool execution failed: " ++ "connection timed out"))
                             [])).
Proof.
  split; [reflexivity |]. split; [reflexivity |].
  apply (@unexpected_error_envelope Stub.deps "validate_access_token" [] Double.unreachable
           Double.unreachable
           (mk_world (Some Double.unreachable_client) 1 [ApiCall ValidateAccessToken])
           Double.unreachable_client _ ValidateAccessToken "TimeoutError"
           "connection timed out"); reflexivity.
Defined.

(** X3: [get_media_insights] without a [media_id] argument fails on the
    subscript: the envelope carries the text of the [KeyError] and no call
    is made on the API client. *)
Theorem media_insights_requires_media_id (deps : Collaborators) (arguments : pydict)
        (w w0 : World) (client : InstagramClient) :
  client_obtained deps w client w0 ->
  lookup "media_id" arguments = None ->
  handle_call_tool deps "get_media_insights" arguments w
  = (Ret (_wrap (mk_result false PNone (Some "Tool execution failed: 'media_id'") [])), w0)
  /\ api_calls (events w0) = api_calls (events w).
Proof.
  intros H Hm. destruct (obtain_client_quiet H) as (_ & Hcalls & _).
  split; [| assumption].
  unfold handle_call_tool, bind. unfold client_obtained in H. rewrite H.
  unfold try_except, dispatch. simpl.
  unfold lift, bind, dict_item. rewrite Hm. reflexivity.
Qed.

Lemma media_insights_requires_media_id_witness :
  client_obtained Stub.deps Stub.started Stub.client Stub.started
  /\ lookup "media_id" [("metrics", PList [PStr "reach"])] = None
  /\ handle_call_tool Stub.deps "get_media_insights" [("metrics", PList [PStr "reach"])]
                      Stub.started
     = (Ret (_wrap (mk_result false PNone (Some "Tool execution failed: 'media_id'") [])),
        Stub.started)
  /\ api_calls (events Stub.started) = api_calls (events Stub.started).
Proof.
  split; [reflexivity |]. split; [reflexivity |].
  apply (@media_insights_requires_media_id Stub.deps [("metrics", PList [PStr "reach"])]
           Stub.started Stub.started Stub.client); reflexivity.
Defined.

(** ** The dispatcher: argument normalisation *)

Lemma map_res_valid_metrics (values : list string) (repr : pyval -> string)
      (names : list string) :
  forallb (fun s => mem_string s values) names = true ->
  map_res (coerce_metric values repr) (map PStr names) = Ret (map Metric names).
Proof.
  induction names as [|s names IH]; simpl; [reflexivity |].
  intros Hall. apply andb_prop in Hall. destruct Hall as [Hs Hrest].
  rewrite Hs, (IH Hrest). reflexivity.
Qed.

(** X4: when every string of a non-empty [metrics] array is a value of
    [InsightMetric], [get_media_insights] calls the API client once, with
    the media id as given and the members of the enumeration in the order
    of the array. *)
Theorem media_insights_coerces_metrics (deps : Collaborators) (arguments : pydict)
        (w w0 : World) (client : InstagramClient) (media_id : pyval)
        (names : list string) :
  client_obtained deps w client w0 ->
  lookup "media_id" arguments = Some media_id ->
  lookup "metrics" arguments = Some (PList (map PStr names)) ->
  names <> [] ->
  forallb (fun s => mem_string s (InsightMetric_values deps)) names = true ->
  exists out w1,
    handle_call_tool deps "get_media_insights" arguments w = (out, w1)
    /\ api_calls (events w1)
       = (api_calls (events w)
            ++ [GetMediaInsights media_id (Some (MetricsCoerced (map Metric names)))])%list.
Proof.
  intros H Hm Hl Hne Hall. destruct (obtain_client_quiet H) as (_ & Hcalls & _).
  unfold handle_call_tool, bind. unfold client_obtained in H. rewrite H.
  unfold try_except, dispatch. simpl.
  unfold lift, bind, dict_item, dict_get, coerce_metrics. rewrite Hm, Hl.
  destruct names as [|s names]; [congruence |].
  cbn [map truthy py_iter].
  change (PStr s :: map PStr names) with (map PStr (s :: names)).
  rewrite (@map_res_valid_metrics _ (py_repr deps) _ Hall). unfold await.
  destruct (get_media_insights client media_id
              (Some (MetricsCoerced (map Metric (s :: names))))) as [insights | e].
  - unfold succeed, tool_metadata, utcnow, bind, ret. simpl.
    eexists; eexists; split; [reflexivity |]. simpl.
    rewrite api_calls_app, Hcalls. reflexivity.
  - rewrite on_tool_error_envelope. unfold ret.
    eexists; eexists; split; [reflexivity |]. simpl.
    rewrite api_calls_app, Hcalls. reflexivity.
Qed.

Lemma media_insights_coerces_metrics_witness :
  let arguments := [("media_id", PStr "m1");
                    ("metrics", PList (map PStr ["saves"; "reach"]))] in
  client_obtained Stub.deps Stub.started Stub.client Stub.started
  /\ lookup "media_id" arguments = Some (PStr "m1")
  /\ lookup "metrics" arguments = Some (PList (map PStr ["saves"; "reach"]))
  /\ ["saves"; "reach"] <> []
  /\ forallb (fun s => mem_string s (InsightMetric_values Stub.deps)) ["saves"; "reach"]
     = true
  /\ exists out w1,
      handle_call_tool Stub.deps "get_media_insights" arguments Stub.started = (out, w1)
      /\ api_calls (events w1)
         = (api_calls (events Stub.started)
              ++ [GetMediaInsights (PStr "m1")
                    (Some (MetricsCoerced (map Metric ["saves"; "reach"])))])%list.
Proof.
  intros arguments.
  split; [reflexivity |]. split; [reflexivity |]. split; [reflexivity |].
  split; [discriminate |]. split; [reflexivity |].
  apply (@media_insights_coerces_metrics Stub.deps arguments Stub.started Stub.started
           Stub.client (PStr "m1") ["saves"; "reach"]);
    [reflexivity | reflexivity | reflexivity | discriminate | reflexivity].
Defined.

(** X5: a [metrics] argument that is absent or falsy (an empty array,
    [None]) is not coerced: [get_media_insights] hands it to the API
    client as it is, [None] when absent. *)
Theorem media_insights_passes_falsy_metrics (deps : Collaborators) (arguments : pydict)
        (w w0 : World) (client : InstagramClient) (media_id : pyval) :
  client_obtained deps w client w0 ->
  lookup "media_id" arguments = Some media_id ->
  truthy (dict_get arguments "metrics") = false ->
  exists out w1,
    handle_call_tool deps "get_media_insights" arguments w = (out, w1)
    /\ api_calls (events w1)
       = (api_calls (events w)
            ++ [GetMediaInsights media_id
                  (Some (MetricsRaw (dict_get arguments "metrics")))])%list.
Proof.
  intros H Hm Hf. destruct (obtain_client_quiet H) as (_ & Hcalls & _).
  unfold handle_call_tool, bind. unfold client_obtained in H. rewrite H.
  unfold try_except, dispatch. simpl.
  unfold lift, bind, dict_item, coerce_metrics. rewrite Hm, Hf. unfold await.
  destruct (get_media_insights client media_id
              (Some (MetricsRaw (dict_get arguments "metrics")))) as [insights | e].
  - unfold succeed, tool_metadata, utcnow, bind, ret. simpl.
    eexists; eexists; split; [reflexivity |]. simpl.
    rewrite api_calls_app, Hcalls. reflexivity.
  - rewrite on_tool_error_envelope. unfold ret.
    eexists; eexists; split; [reflexivity |]. simpl.
    rewrite api_calls_app, Hcalls. reflexivity.
Qed.

Lemma media_insights_passes_falsy_metrics_witness :
  let arguments := [("media_id", PStr "m1"); ("metrics", PList [])] in
  client_obtained Stub.deps Stub.started Stub.client Stub.started
  /\ lookup "media_id" arguments = Some (PStr "m1")
  /\ truthy (dict_get arguments "metrics") = false
  /\ exists out w1,
      handle_call_tool Stub.deps "get_media_insights" arguments Stub.started = (out, w1)
      /\ api_calls (events w1)
         = (api_calls (events Stub.started)
              ++ [GetMediaInsights (PStr "m1")
                    (Some (MetricsRaw (dict_get arguments "metrics")))])%list.
Proof.
  intros arguments.
  split; [reflexivity |]. split; [reflexivity |]. split; [reflexivity |].
  apply (@media_insights_passes_falsy_metrics Stub.deps arguments Stub.started Stub.started
           Stub.client (PStr "m1")); reflexivity.
Defined.

Lemma coerce_period_value (repr : pyval -> string) (p : InsightPeriod) :
  coerce_period repr (PStr (period_value p)) = Ret p.
Proof. destruct p; reflexivity. Qed.

(** X6: [get_account_insights] coerces the period only.  With a period
    that is a value of [InsightPeriod], the API client is called once with
    that member, and the [metrics] argument reaches the client as the
    invocation gave it, checked against no enumeration. *)
Theorem account_insights_passes_metrics (deps : Collaborators) (arguments : pydict)
        (w w0 : World) (client : InstagramClient) (p : InsightPeriod) :
  client_obtained deps w client w0 ->
  lookup "period" arguments = Some (PStr (period_value p)) ->
  exists out w1,
    handle_call_tool deps "get_account_insights" arguments w = (out, w1)
    /\ api_calls (events w1)
       = (api_calls (events w)
            ++ [GetAccountInsights (Some (dict_get arguments "account_id"))
                                   (Some (dict_get arguments "metrics")) (Some p)])%list.
Proof.
  intros H Hp. destruct (obtain_client_quiet H) as (_ & Hcalls & _).
  unfold handle_call_tool, bind. unfold client_obtained in H. rewrite H.
  unfold try_except, dispatch. simpl.
  unfold lift, bind, dict_get_default. rewrite Hp, coerce_period_value. unfold await.
  destruct (get_account_insights client (Some (dict_get arguments "account_id"))
              (Some (dict_get arguments "metrics")) (Some p)) as [insights | e].
  - unfold succeed, tool_metadata, utcnow, bind, ret. simpl.
    eexists; eexists; split; [reflexivity |]. simpl.
    rewrite api_calls_app, Hcalls. reflexivity.
  - rewrite on_tool_error_envelope. unfold ret.
    eexists; eexists; split; [reflexivity |]. simpl.
    rewrite api_calls_app, Hcalls. reflexivity.
Qed.

Lemma account_insights_passes_metrics_witness :
  let arguments := [("metrics", PList [PStr "bogus"]); ("period", PStr "week")] in
  client_obtained Stub.deps Stub.started Stub.client Stub.started
  /\ lookup "period" arguments = Some (PStr (period_value WEEK))
  /\ exists out w1,
      handle_call_tool Stub.deps "get_account_insights" arguments Stub.started = (out, w1)
      /\ api_calls (events w1)
         = (api_calls (events Stub.started)
              ++ [GetAccountInsights (Some PNone) (Some (PList [PStr "bogus"]))
                                     (Some WEEK)])%list.
Proof.
  intros arguments.
  split; [reflexivity |]. split; [reflexivity |].
  apply (@account_insights_passes_metrics Stub.deps arguments Stub.started Stub.started
           Stub.client WEEK); reflexivity.
Defined.

(** X7: the default period stands in for a missing key only.  A [period]
    argument that is present but is not a string ([None], a number) makes
    the coercion fail: the envelope reports failure and no call is made on
    the API client. *)
Theorem account_insights_rejects_non_string_period (deps : Collaborators)
        (arguments : pydict) (w w0 : World) (client : InstagramClient) (v : pyval) :
  client_obtained deps w client w0 ->
  lookup "period" arguments = Some v ->
  (forall s, v <> PStr s) ->
  handle_call_tool deps "get_account_insights" arguments w
  = (Ret (_wrap (mk_result false PNone
                           (Some ("Tool execution failed: " ++ py_repr deps v
                                  ++ " is not a valid InsightPeriod")) [])), w0)
  /\ api_calls (events w0) = api_calls (events w).
Proof.
  intros H Hp Hv. destruct (obtain_client_quiet H) as (_ & Hcalls & _).
  split; [| assumption].
  unfold handle_call_tool, bind. unfold client_obtained in H. rewrite H.
  unfold try_except, dispatch. simpl.
  unfold lift, bind, dict_get_default. rewrite Hp.
  destruct v; try reflexivity. exfalso. eapply Hv. reflexivity.
Qed.

Lemma account_insights_rejects_non_string_period_witness :
  client_obtained Stub.deps Stub.started Stub.client Stub.started
  /\ lookup "period" [("period", PNone)] = Some PNone
  /\ (forall s, PNone <> PStr s)
  /\ handle_call_tool Stub.deps "get_account_insights" [("period", PNone)] Stub.started
     = (Ret (_wrap (mk_result false PNone
                              (Some ("Tool execution failed: " ++ py_repr Stub.deps PNone
                                     ++ " is not a valid InsightPeriod")) [])),
        Stub.started)
  /\ api_calls (events Stub.started) = api_calls (events Stub.started).
Proof.
  split; [reflexivity |]. split; [reflexivity |]. split; [discriminate |].
  apply (@account_insights_rejects_non_string_period Stub.deps [("period", PNone)]
           Stub.started Stub.started Stub.client PNone);
    [reflexivity | reflexivity | discriminate].
Defined.

(** X8: [get_media_posts] calls the API client once with the account id,
    the limit and the cursor of the invocation; the limit is 25 when the
    argument is absent and is otherwise passed as given, without a range
    check.  When the client answers, the payload lists one mapping per
    post and its [count] is the number of posts. *)
Theorem media_posts_limit_and_count (deps : Collaborators) (arguments : pydict)
        (w w0 : World) (client : InstagramClient) :
  client_obtained deps w client w0 ->
  let account_id := dict_get arguments "account_id" in
  let limit := match lookup "limit" arguments with Some v => v | None => PInt 25 end in
  let after := dict_get arguments "after" in
  exists out w1,
    handle_call_tool deps "get_media_posts" arguments w = (out, w1)
    /\ api_calls (events w1)
       = (api_calls (events w)
            ++ [GetMediaPosts (Some account_id) (Some limit) (Some after)])%list
    /\ forall posts,
        get_media_posts client (Some account_id) (Some limit) (Some after) = Ret posts ->
        exists r items,
          out = Ret (_wrap r)
          /\ success r = true
          /\ data r = PDict [("posts", PList items);
                             ("count", PInt (Z.of_nat (length posts)))]
          /\ items = map (fun p => PDict (post_dict p)) posts
          /\ length items = length posts.
Proof.
  intros H account_id limit after. destruct (obtain_client_quiet H) as (_ & Hcalls & _).
  unfold handle_call_tool, bind. unfold client_obtained in H. rewrite H.
  unfold try_except, dispatch. simpl.
  unfold bind, await, dict_get_default. fold account_id limit after.
  destruct (get_media_posts client (Some account_id) (Some limit) (Some after))
    as [posts | e].
  - unfold succeed, tool_metadata, utcnow, bind, ret. simpl.
    eexists; eexists; split; [reflexivity |]. simpl.
    rewrite api_calls_app, Hcalls. split; [reflexivity |].
    intros posts' Hp. inversion Hp; subst posts'.
    eexists; eexists. split; [reflexivity |]. simpl.
    repeat split. apply length_map.
  - rewrite on_tool_error_envelope. unfold ret.
    eexists; eexists; split; [reflexivity |]. simpl.
    rewrite api_calls_app, Hcalls. split; [reflexivity |].
    intros posts' Hp. discriminate.
Qed.

Lemma media_posts_limit_and_count_witness :
  client_obtained Stub.deps Stub.started Stub.client Stub.started
  /\ exists out w1,
      handle_call_tool Stub.deps "get_media_posts" [("limit", PInt 500)] Stub.started
      = (out, w1)
      /\ api_calls (events w1)
         = (api_calls (events Stub.started)
              ++ [GetMediaPosts (Some PNone) (Some (PInt 500)) (Some PNone)])%list
      /\ forall posts,
          get_media_posts Stub.client (Some PNone) (Some (PInt 500)) (Some PNone)
          = Ret posts ->
          exists r items,
            out = Ret (_wrap r)
            /\ success r = true
            /\ data r = PDict [("posts", PList items);
                               ("count", PInt (Z.of_nat (length posts)))]
            /\ items = map (fun p => PDict (post_dict p)) posts
            /\ length items = length posts.
Proof.
  split; [reflexivity |].
  apply (@media_posts_limit_and_count Stub.deps [("limit", PInt 500)] Stub.started
           Stub.started Stub.client).
  reflexivity.
Defined.

(** ** The dispatcher: [publish_media] past the check *)

(** X9: when the exclusivity check passes and the construction of the
    [PublishMediaRequest] raises, the exception is turned into a failure
    envelope and the API client is not called. *)
Theorem publish_media_rejected_request (deps : Collaborators) (arguments : pydict)
        (w w0 : World) (client : InstagramClient) (e : exn) :
  client_obtained deps w client w0 ->
  Bool.eqb (truthy (dict_get arguments "image_url"))
           (truthy (dict_get arguments "video_url")) = false ->
  PublishMediaRequest_init deps arguments = Raise e ->
  exists w1,
    handle_call_tool deps "publish_media" arguments w
    = (Ret (_wrap (error_envelope e)), w1)
    /\ success (error_envelope e) = false
    /\ api_calls (events w1) = api_calls (events w)
    /\ requests_built (events w1) = (requests_built (events w) ++ [arguments])%list.
Proof.
  intros H Hx He. destruct (obtain_client_quiet H) as (_ & Hcalls & Hreq & _).
  unfold handle_call_tool, bind. unfold client_obtained in H. rewrite H.
  unfold try_except, dispatch. simpl. rewrite Hx.
  unfold new_request, bind, log_event. rewrite He.
  rewrite on_tool_error_envelope. unfold ret.
  eexists. split; [reflexivity |]. simpl.
  rewrite api_calls_app, requests_built_app, Hcalls, Hreq. simpl.
  rewrite app_nil_r. destruct (error_envelope_fails e) as (? & _). auto.
Qed.

Lemma publish_media_rejected_request_witness :
  let arguments := [("image_url", PStr "not a url")] in
  client_obtained Double.strict_deps Stub.started Stub.client Stub.started
  /\ Bool.eqb (truthy (dict_get arguments "image_url"))
              (truthy (dict_get arguments "video_url")) = false
  /\ PublishMediaRequest_init Double.strict_deps arguments
     = Raise (PyError "ValidationError" "1 validation error for PublishMediaRequest")
  /\ exists w1,
      handle_call_tool Double.strict_deps "publish_media" arguments Stub.started
      = (Ret (_wrap (error_envelope
                       (PyError "ValidationError"
                                "1 validation error for PublishMediaRequest"))), w1)
      /\ success (error_envelope
                    (PyError "ValidationError"
                             "1 validation error for PublishMediaRequest")) = false
      /\ api_calls (events w1) = api_calls (events Stub.started)
      /\ requests_built (events w1)
         = (requests_built (events Stub.started) ++ [arguments])%list.
Proof.
  intros arguments.
  split; [reflexivity |]. split; [reflexivity |]. split; [reflexivity |].
  apply (@publish_media_rejected_request Double.strict_deps arguments Stub.started
           Stub.started Stub.client); reflexivity.
Defined.

(** X10: when exactly one of the two URLs is truthy, the request is
    constructed and the client publishes it, the envelope reports success:
    its payload is the mapping of the publish result and its metadata
    names the tool and carries the clock reading taken after the call. *)
Theorem publish_media_success (deps : Collaborators) (arguments : pydict)
        (w w0 : World) (client : InstagramClient)
        (request : PublishMediaRequest) (response : PublishResponse) :
  client_obtained deps w client w0 ->
  Bool.eqb (truthy (dict_get arguments "image_url"))
           (truthy (dict_get arguments "video_url")) = false ->
  PublishMediaRequest_init deps arguments = Ret request ->
  publish_media client request = Ret response ->
  exists w1,
    handle_call_tool deps "publish_media" arguments w
    = (Ret (_wrap (mk_result true (PDict (dict response)) None
                             (stamped deps "publish_media" (S (now w))))), w1)
    /\ api_calls (events w1) = (api_calls (events w) ++ [PublishMedia request])%list
    /\ requests_built (events w1) = (requests_built (events w) ++ [arguments])%list.
Proof.
  intros H Hx Hreq Hpub. destruct (obtain_client_quiet H) as (Hnow & Hcalls & Hrb & _).
  unfold handle_call_tool, bind. unfold client_obtained in H. rewrite H.
  unfold try_except, dispatch. simpl. rewrite Hx.
  unfold new_request, bind, await, log_event. rewrite Hreq. simpl. rewrite Hpub.
  unfold succeed, tool_metadata, utcnow, bind, ret, stamped. simpl. rewrite Hnow.
  eexists. split; [reflexivity |]. simpl.
  rewrite !api_calls_app, !requests_built_app, Hcalls, Hrb. simpl.
  rewrite !app_nil_r. auto.
Qed.

Lemma publish_media_success_witness :
  let arguments := [("video_url", PStr "http://v"); ("caption", PStr "hello")] in
  client_obtained Stub.deps Stub.started Stub.client Stub.started
  /\ Bool.eqb (truthy (dict_get arguments "image_url"))
              (truthy (dict_get arguments "video_url")) = false
  /\ PublishMediaRequest_init Stub.deps arguments
     = Ret (mk_request None (Some "http://v") (Some "hello") None)
  /\ publish_media Stub.client (mk_request None (Some "http://v") (Some "hello") None)
     = Ret Stub.published
  /\ exists w1,
      handle_call_tool Stub.deps "publish_media" arguments Stub.started
      = (Ret (_wrap (mk_result true (PDict (dict Stub.published)) None
                               (stamped Stub.deps "publish_media" (S (now Stub.started))))),
         w1)
      /\ api_calls (events w1)
         = (api_calls (events Stub.started)
              ++ [PublishMedia (mk_request None (Some "http://v") (Some "hello") None)])%list
      /\ requests_built (events w1)
         = (requests_built (events Stub.started) ++ [arguments])%list.
Proof.
  intros arguments.
  split; [reflexivity |]. split; [reflexivity |]. split; [reflexivity |].
  split; [reflexivity |].
  apply (@publish_media_success Stub.deps arguments Stub.started Stub.started Stub.client
           (mk_request None (Some "http://v") (Some "hello") None) Stub.published);
    reflexivity.
Defined.

(** ** The catalogue and the dispatcher *)

Lemma error_envelope_not_unknown (e : exn) (name : string) :
  error (error_envelope e) <> Some ("Unknown tool: " ++ name).
Proof. destruct e; simpl; intros E; inversion E. Qed.

(** X11: the dispatcher knows every tool that the catalogue lists: for a
    catalogued name the envelope is never the unknown-tool failure,
    whatever the arguments and the outcome of the client. *)
Theorem catalogued_tool_is_dispatched (deps : Collaborators) (name : string)
        (arguments : pydict) (w w0 : World) (client : InstagramClient) :
  client_obtained deps w client w0 ->
  catalogued name = true ->
  exists r w1,
    handle_call_tool deps name arguments w = (Ret (_wrap r), w1)
    /\ error r <> Some ("Unknown tool: " ++ name).
Proof.
  intros H Hcat.
  destruct (handle_call_tool_run name arguments H) as (r & w1 & Hh & _ & Hrun).
  exists r, w1. split; [assumption |].
  destruct (tool_run_cases Hrun)
    as [(c & payload & _ & _ & _ & ->)
       | [(c & e & _ & _ & ->)
         | [(e & _ & ->) | [(_ & _ & ->) | (Hunk & _ & _)]]]].
  - discriminate.
  - apply error_envelope_not_unknown.
  - apply error_envelope_not_unknown.
  - simpl. intros E. inversion E.
  - congruence.
Qed.

Lemma catalogued_tool_is_dispatched_witness :
  client_obtained Stub.deps Double.unreachable Double.unreachable_client Double.unreachable
  /\ catalogued "get_profile_info" = true
  /\ exists r w1,
      handle_call_tool Stub.deps "get_profile_info" [] Double.unreachable
      = (Ret (_wrap r), w1)
      /\ error r <> Some ("Unknown tool: " ++ "get_profile_info").
Proof.
  split; [reflexivity |]. split; [reflexivity |].
  apply (@catalogued_tool_is_dispatched Stub.deps "get_profile_info" []
           Double.unreachable Double.unreachable Double.unreachable_client);
    reflexivity.
Defined.

(** ** The client handle over a session *)

Lemma keeps_ret {A} (a : A) : keeps_client (ret a).
Proof. intros w out w' E. inversion E; subst. auto. Qed.

Lemma keeps_raise {A} (e : exn) : keeps_client (@raise A e).
Proof. intros w out w' E. inversion E; subst. auto. Qed.

Lemma keeps_lift {A} (r : res A) : keeps_client (lift r).
Proof. intros w out w' E. inversion E; subst. auto. Qed.

Lemma clients_built_app (a b : list event) :
  clients_built (a ++ b) = clients_built a + clients_built b.
Proof.
  induction a as [|[| |c] a IH]; simpl; auto.
Qed.

Lemma keeps_await {A} (c : call) (o : res A) : keeps_client (await c o).
Proof.
  intros w out w' E. inversion E; subst. simpl.
  rewrite clients_built_app. simpl. split; [reflexivity | lia].
Qed.

Lemma keeps_utcnow (deps : Collaborators) : keeps_client (utcnow deps).
Proof. intros w out w' E. inversion E; subst. auto. Qed.

Lemma keeps_new_request (deps : Collaborators) (arguments : pydict) :
  keeps_client (new_request deps arguments).
Proof.
  intros w out w' E. inversion E; subst. simpl.
  rewrite clients_built_app. simpl. split; [reflexivity | lia].
Qed.

Lemma keeps_bind {A B} (m : M A) (k : A -> M B) :
  keeps_client m -> (forall a, keeps_client (k a)) -> keeps_client (bind m k).
Proof.
  intros Hm Hk w out w' E. unfold bind in E.
  destruct (m w) as [[a | e] w1] eqn:Em.
  - destruct (Hm _ _ _ Em) as (? & ?). destruct (Hk a _ _ _ E) as (? & ?).
    split; congruence.
  - inversion E; subst. exact (Hm _ _ _ Em).
Qed.

Lemma keeps_try_except {A} (m : M A) (h : exn -> M A) :
  keeps_client m -> (forall e, keeps_client (h e)) -> keeps_client (try_except m h).
Proof.
  intros Hm Hh w out w' E. unfold try_except in E.
  destruct (m w) as [[a | e] w1] eqn:Em.
  - inversion E; subst. exact (Hm _ _ _ Em).
  - destruct (Hm _ _ _ Em) as (? & ?). destruct (Hh e _ _ _ E) as (? & ?).
    split; congruence.
Qed.

Ltac keeps :=
  repeat first
    [ apply keeps_ret | apply keeps_raise | apply keeps_lift | apply keeps_await
    | apply keeps_utcnow | apply keeps_new_request
    | apply keeps_bind; [| intros ?]
    | apply keeps_try_except; [| intros ?]
    | match goal with
      | |- keeps_client (if ?b then _ else _) => destruct b
      | |- keeps_client (match ?e with InstagramAPIError _ _ _ _ => _ | PyError _ _ => _ end) =>
          destruct e
      end
    | progress cbv zeta
    | progress unfold succeed, tool_metadata ].

Lemma keeps_dispatch (deps : Collaborators) (client : InstagramClient) (name : string)
      (arguments : pydict) :
  keeps_client (try_except (dispatch deps client name arguments) on_tool_error).
Proof. unfold dispatch, on_tool_error. keeps. Qed.

Lemma keeps_read_resource (client : InstagramClient) (uri : string) :
  keeps_client (try_except (read_resource_body client uri)
                           (fun e => lift (json_dumps (error_document (exn_str e))))).
Proof. unfold read_resource_body. keeps. Qed.

Lemma keeps_get_prompt (deps : Collaborators) (client : InstagramClient) (name : string)
      (arguments : pydict) :
  keeps_client (try_except (get_prompt_body deps client name arguments)
                           (fun e => ret ("Error generating prompt: " ++ exn_str e))).
Proof. unfold get_prompt_body. keeps. Qed.

(** Each handler, given the handle, returns a response, and the state it
    leaves holds the same handle with no client constructed meanwhile. *)
Lemma handle_returns (deps : Collaborators) (rq : request) (w w0 : World)
      (client : InstagramClient) :
  client_obtained deps w client w0 ->
  exists r w1,
    handle deps rq w = (Ret r, w1)
    /\ instagram_client w1 = Some client
    /\ clients_built (events w1) = clients_built (events w0).
Proof.
  intros H. destruct (obtain_client_quiet H) as (_ & _ & _ & Hc).
  unfold client_obtained in H. destruct rq as [name arguments | uri | name arguments].
  - destruct (dispatch_run deps client name arguments w0) as (r & w1 & Hr & _).
    destruct (@keeps_dispatch deps client name arguments _ _ _ Hr) as (Hk1 & Hk2).
    exists (ToolResponse (_wrap r)), w1.
    unfold handle, handle_call_tool, bind, ret. rewrite H, Hr.
    repeat split; congruence.
  - destruct (try_except (read_resource_body client uri)
                (fun e => lift (json_dumps (error_document (exn_str e)))) w0)
      as [out w1] eqn:Hr.
    destruct (@keeps_read_resource client uri _ _ _ Hr) as (Hk1 & Hk2).
    assert (Hret : exists text, out = Ret text).
    { unfold try_except in Hr.
      destruct (read_resource_body client uri w0) as [[text | e] w'].
      - inversion Hr; subst. eauto.
      - unfold lift in Hr. rewrite json_dumps_error_document in Hr.
        inversion Hr; subst. eauto. }
    destruct Hret as (text & ->).
    exists (ResourceText text), w1.
    unfold handle, handle_read_resource, bind, ret. rewrite H, Hr.
    repeat split; congruence.
  - destruct (try_except (get_prompt_body deps client name arguments)
                (fun e => ret ("Error generating prompt: " ++ exn_str e)) w0)
      as [out w1] eqn:Hr.
    destruct (@keeps_get_prompt deps client name arguments _ _ _ Hr) as (Hk1 & Hk2).
    assert (Hret : exists text, out = Ret text).
    { unfold try_except in Hr.
      destruct (get_prompt_body deps client name arguments w0) as [[text | e] w'];
        inversion Hr; subst; eauto. }
    destruct Hret as (text & ->).
    exists (PromptText text), w1.
    split; [| split; congruence].
    unfold handle, handle_get_prompt, bind. rewrite H, Hr. reflexivity.
Qed.

Lemma session_with_handle (deps : Collaborators) (rqs : list request) (w : World)
      (client : InstagramClient) :
  instagram_client w = Some client ->
  exists rs w1,
    session deps rqs w = (Ret rs, w1)
    /\ length rs = length rqs
    /\ instagram_client w1 = Some client
    /\ clients_built (events w1) = clients_built (events w).
Proof.
  revert w. induction rqs as [|rq rqs IH]; intros w Hw.
  - exists [], w. repeat split. assumption.
  - assert (H : client_obtained deps w client w).
    { unfold client_obtained, obtain_client. rewrite Hw. reflexivity. }
    destruct (@handle_returns deps rq w w client H) as (r & w1 & Hr & Hc & Hb).
    destruct (IH w1 Hc) as (rs & w2 & Hrs & Hlen & Hc2 & Hb2).
    exists (r :: rs), w2. simpl. unfold bind, ret. rewrite Hr, Hrs. simpl.
    repeat split; congruence.
Qed.

(** X12: once the process holds the client handle, a session of any
    requests (tool calls, resource reads, prompts) answers every request
    and never raises, keeps the same handle, and constructs no further
    client. *)
Theorem session_keeps_handle (deps : Collaborators) (rqs : list request) (w : World)
        (client : InstagramClient) :
  instagram_client w = Some client ->
  exists rs w1,
    session deps rqs w = (Ret rs, w1)
    /\ length rs = length rqs
    /\ instagram_client w1 = Some client
    /\ clients_built (events w1) = clients_built (events w).
Proof. apply session_with_handle. Qed.

Lemma session_keeps_handle_witness :
  let rqs := [CallTool "get_profile_info" []; ReadResource "instagram://nowhere";
              GetPrompt "hashtag_analysis" [("post_count", PStr "many")];
              CallTool "publish_media" []] in
  instagram_client Double.unreachable = Some Double.unreachable_client
  /\ exists rs w1,
      session Stub.deps rqs Double.unreachable = (Ret rs, w1)
      /\ length rs = length rqs
      /\ instagram_client w1 = Some Double.unreachable_client
      /\ clients_built (events w1) = clients_built (events Double.unreachable).
Proof.
  intros rqs. split; [reflexivity |].
  apply (@session_keeps_handle Stub.deps rqs Double.unreachable Double.unreachable_client).
  reflexivity.
Defined.

(** X13: a process that holds no handle constructs the client on the
    first request and reuses it: when the construction succeeds, a
    session of one or more requests answers them all and constructs the
    client exactly once. *)
Theorem session_builds_client_once (deps : Collaborators) (rq : request)
        (rqs : list request) (w : World) (client : InstagramClient) :
  instagram_client w = None ->
  InstagramClient_init deps = Ret client ->
  exists rs w1,
    session deps (rq :: rqs) w = (Ret rs, w1)
    /\ length rs = S (length rqs)
    /\ instagram_client w1 = Some client
    /\ clients_built (events w1) = S (clients_built (events w)).
Proof.
  intros Hw Hinit.
  assert (H : client_obtained deps w client
                (mk_world (Some client) (now w) (events w ++ [ClientBuilt]))).
  { unfold client_obtained, obtain_client. rewrite Hw, Hinit. reflexivity. }
  destruct (@handle_returns deps rq _ _ client H) as (r & w1 & Hr & Hc & Hb).
  destruct (@session_with_handle deps rqs w1 client Hc) as (rs & w2 & Hrs & Hlen & Hc2 & Hb2).
  exists (r :: rs), w2. simpl. unfold bind, ret. rewrite Hr, Hrs. simpl.
  repeat split; try congruence.
  rewrite Hb2, Hb. simpl. rewrite clients_built_app. simpl. lia.
Qed.

Lemma session_builds_client_once_witness :
  instagram_client Stub.fresh = None
  /\ InstagramClient_init Stub.deps = Ret Stub.client
  /\ exists rs w1,
      session Stub.deps [ReadResource "instagram://profile";
                         CallTool "get_account_pages" [];
                         GetPrompt "content_strategy" []] Stub.fresh = (Ret rs, w1)
      /\ length rs = S (length [CallTool "get_account_pages" [];
                                GetPrompt "content_strategy" []])
      /\ instagram_client w1 = Some Stub.client
      /\ clients_built (events w1) = S (clients_built (events Stub.fresh)).
Proof.
  split; [reflexivity |]. split; [reflexivity |].
  apply (@session_builds_client_once Stub.deps (ReadResource "instagram://profile")
           [CallTool "get_account_pages" []; GetPrompt "content_strategy" []]
           Stub.fresh Stub.client); reflexivity.
Defined.

(** ** Startup *)

Lemma run_cases (deps : Collaborators) (w w1 : World) (out : res startup) :
  run deps w = (out, w1) ->
  match InstagramClient_init deps with
  | Raise e => out = Raise e /\ instagram_client w1 = instagram_client w
               /\ api_calls (events w1) = api_calls (events w)
  | Ret client =>
      instagram_client w1 = Some client
      /\ api_calls (events w1) = (api_calls (events w) ++ [ValidateAccessToken])%list
      /\ out = Ret (match validate_access_token client with
                    | Ret true => Serve
                    | _ => Exit 1
                    end)
  end.
Proof.
  unfold run. destruct (InstagramClient_init deps) as [client | e].
  - unfold await. cbv zeta.
    destruct (validate_access_token client) as [[|] | e]; simpl;
      intros E; inversion E; subst; simpl;
      rewrite !api_calls_app; simpl; rewrite app_nil_r; auto.
  - intros E. inversion E; subst. simpl.
    rewrite api_calls_app. simpl. rewrite app_nil_r. auto.
Qed.

(** X14: the startup gate.  [run] reaches the serve loop exactly when the
    client is constructed and the validation of the access token answers
    true; a token reported invalid and a validation that raises both end
    the process with exit status 1.  In each of these cases exactly one
    call, the validation, has been made on the client. *)
Theorem run_startup_gate (deps : Collaborators) (w w1 : World) (out : res startup)
        (client : InstagramClient) :
  run deps w = (out, w1) ->
  InstagramClient_init deps = Ret client ->
  (out = Ret Serve <-> validate_access_token client = Ret true)
  /\ (out = Ret (Exit 1) <-> validate_access_token client <> Ret true)
  /\ api_calls (events w1) = (api_calls (events w) ++ [ValidateAccessToken])%list
  /\ instagram_client w1 = Some client.
Proof.
  intros Hrun Hinit. apply run_cases in Hrun. rewrite Hinit in Hrun.
  destruct Hrun as (Hc & Hcalls & ->).
  destruct (validate_access_token client) as [[|] | e];
    repeat split; try assumption; try congruence; try discriminate;
    intros E; try discriminate; try reflexivity; exfalso; apply E; reflexivity.
Qed.

Lemma run_startup_gate_witness :
  run Double.expired_deps Stub.fresh
  = (Ret (Exit 1),
     mk_world (Some Double.expired_client) 1 [ClientBuilt; ApiCall ValidateAccessToken])
  /\ InstagramClient_init Double.expired_deps = Ret Double.expired_client
  /\ (Ret (Exit 1) = Ret Serve <-> validate_access_token Double.expired_client = Ret true)
  /\ (Ret (Exit 1) = Ret (Exit 1)
      <-> validate_access_token Double.expired_client <> Ret true)
  /\ api_calls [ClientBuilt; ApiCall ValidateAccessToken]
     = (api_calls (events Stub.fresh) ++ [ValidateAccessToken])%list
  /\ Some Double.expired_client = Some Double.expired_client.
Proof.
  split; [reflexivity |]. split; [reflexivity |].
  apply (@run_startup_gate Double.expired_deps Stub.fresh
           (mk_world (Some Double.expired_client) 1 [ClientBuilt; ApiCall ValidateAccessToken])
           (Ret (Exit 1)) Double.expired_client); reflexivity.
Defined.

(** X15: after a startup that reaches the serve loop, every session is
    answered in full: no handler raises and none constructs a client, so
    the construction failure that a handler would let through cannot occur
    while serving. *)
Theorem serve_after_run (deps : Collaborators) (w w1 : World) (rqs : list request) :
  run deps w = (Ret Serve, w1) ->
  exists rs w2,
    session deps rqs w1 = (Ret rs, w2)
    /\ length rs = length rqs
    /\ instagram_client w2 = instagram_client w1
    /\ clients_built (events w2) = clients_built (events w1).
Proof.
  intros Hrun. apply run_cases in Hrun.
  destruct (InstagramClient_init deps) as [client | e].
  - destruct Hrun as (Hc & _ & _).
    destruct (@session_with_handle deps rqs w1 client Hc) as (rs & w2 & Hs & Hl & Hc2 & Hb).
    exists rs, w2. repeat split; congruence.
  - destruct Hrun as (E & _). discriminate.
Qed.

Lemma serve_after_run_witness :
  run Stub.deps Stub.fresh
  = (Ret Serve, mk_world (Some Stub.client) 1 [ClientBuilt; ApiCall ValidateAccessToken])
  /\ exists rs w2,
      session Stub.deps [CallTool "nope" []; ReadResource "instagram://pages"]
              (mk_world (Some Stub.client) 1 [ClientBuilt; ApiCall ValidateAccessToken])
      = (Ret rs, w2)
      /\ length rs = length [CallTool "nope" []; ReadResource "instagram://pages"]
      /\ instagram_client w2
         = instagram_client
             (mk_world (Some Stub.client) 1 [ClientBuilt; ApiCall ValidateAccessToken])
      /\ clients_built (events w2)
         = clients_built
             (events (mk_world (Some Stub.client) 1
                               [ClientBuilt; ApiCall ValidateAccessToken])).
Proof.
  split; [reflexivity |].
  apply (@serve_after_run Stub.deps Stub.fresh
           (mk_world (Some Stub.client) 1 [ClientBuilt; ApiCall ValidateAccessToken])
           [CallTool "nope" []; ReadResource "instagram://pages"]).
  reflexivity.
Defined.

(** ** The resource reader: calls and payloads *)

Lemma resource_call_recognized (uri : string) :
  recognized uri = match resource_call uri with Some _ => true | None => false end.
Proof.
  rewrite recognized_cases. unfold resource_call.
  destruct (uri =? "instagram://profile"); [reflexivity |].
  destruct (uri =? "instagram://media/recent"); [reflexivity |].
  destruct (uri =? "instagram://insights/account"); [reflexivity |].
  destruct (uri =? "instagram://pages"); reflexivity.
Qed.

(** X16: reading a resource makes exactly the call that belongs to its
    URI, with the client's own defaults: the profile and the account
    insights without any argument, the recent media with the limit 10 and
    nothing else, the pages; an unrecognized URI makes no call. *)
Theorem read_resource_calls (deps : Collaborators) (uri : string) (w w0 : World)
        (client : InstagramClient) :
  client_obtained deps w client w0 ->
  exists text w1,
    handle_read_resource deps uri w = (Ret text, w1)
    /\ api_calls (events w1)
       = (api_calls (events w)
            ++ match resource_call uri with Some c => [c] | None => [] end)%list.
Proof.
  intros H. destruct (obtain_client_quiet H) as (_ & Hcalls & _).
  unfold handle_read_resource, bind. unfold client_obtained in H. rewrite H.
  unfold try_except, read_resource_body, resource_call.
  destruct (uri =? "instagram://profile");
    [| destruct (uri =? "instagram://media/recent");
       [| destruct (uri =? "instagram://insights/account");
          [| destruct (uri =? "instagram://pages")]]];
    unfold bind, await, lift, raise.
  5: { rewrite json_dumps_error_document. eexists; eexists; split; [reflexivity |].
       rewrite app_nil_r. assumption. }
  all: match goal with
       | |- context [match ?o with Ret _ => _ | Raise _ => _ end] =>
           lazymatch o with
           | json_dumps _ => fail
           | _ => destruct o as [a | e]
           end
       end.
  all: try match goal with
           | |- context [json_dumps ?v] =>
               lazymatch v with
               | error_document _ => fail
               | _ => destruct (json_dumps v) as [t | e]
               end
           end.
  all: rewrite ?json_dumps_error_document.
  all: eexists; eexists; (split; [reflexivity |]); simpl;
    rewrite api_calls_app, Hcalls; reflexivity.
Qed.

Lemma read_resource_calls_witness :
  client_obtained Stub.deps Stub.started Stub.client Stub.started
  /\ exists text w1,
      handle_read_resource Stub.deps "instagram://media/recent" Stub.started
      = (Ret text, w1)
      /\ api_calls (events w1)
         = (api_calls (events Stub.started)
              ++ [GetMediaPosts None (Some (PInt 10)) None])%list.
Proof.
  split; [reflexivity |].
  apply (@read_resource_calls Stub.deps "instagram://media/recent" Stub.started
           Stub.started Stub.client).
  reflexivity.
Defined.

(** X17: the two serialisations differ.  When the mapping of the profile
    holds an object without a JSON encoding (a [datetime]), reading
    [instagram://profile] returns the error document of the encoder's
    [TypeError], whereas the tool [get_profile_info], which serialises
    with [default=str], returns a successful envelope. *)
Theorem unserializable_profile (deps : Collaborators) (arguments : pydict)
        (w w0 : World) (client : InstagramClient) (profile : Profile) (t : string) :
  client_obtained deps w client w0 ->
  get_profile_info client None = Ret profile ->
  get_profile_info client (Some (dict_get arguments "account_id")) = Ret profile ->
  first_unserializable (PDict (dict profile)) = Some t ->
  (exists text w1,
      handle_read_resource deps "instagram://profile" w = (Ret text, w1)
      /\ json_loads text
         = Some (PDict [("error",
                         PStr ("Object of type " ++ t ++ " is not JSON serializable"))]))
  /\ (exists w1,
         handle_call_tool deps "get_profile_info" arguments w
         = (Ret (_wrap (mk_result true (PDict (dict profile)) None
                                  (stamped deps "get_profile_info" (S (now w))))), w1)).
Proof.
  intros H Hr Ht Hu. destruct (obtain_client_quiet H) as (Hnow & _).
  unfold client_obtained in H. split.
  - unfold handle_read_resource, bind. rewrite H.
    unfold try_except, read_resource_body. simpl.
    unfold bind, await, lift. rewrite Hr. unfold json_dumps at 1. rewrite Hu.
    rewrite json_dumps_error_document.
    eexists; eexists; split; [reflexivity |]. apply json_loads_one_key.
  - unfold handle_call_tool, bind. rewrite H.
    unfold try_except, dispatch. simpl.
    unfold bind, await. rewrite Ht.
    unfold succeed, tool_metadata, utcnow, bind, ret, stamped. simpl. rewrite Hnow.
    eexists. reflexivity.
Qed.

Lemma unserializable_profile_witness :
  client_obtained Stub.deps Double.dated Double.dated_client Double.dated
  /\ get_profile_info Double.dated_client None = Ret Double.dated_profile
  /\ get_profile_info Double.dated_client (Some (dict_get [] "account_id"))
     = Ret Double.dated_profile
  /\ first_unserializable (PDict (dict Double.dated_profile)) = Some "datetime"
  /\ (exists text w1,
         handle_read_resource Stub.deps "instagram://profile" Double.dated = (Ret text, w1)
         /\ json_loads text
            = Some (PDict [("error",
                            PStr ("Object of type " ++ "datetime"
                                  ++ " is not JSON serializable"))]))
  /\ (exists w1,
         handle_call_tool Stub.deps "get_profile_info" [] Double.dated
         = (Ret (_wrap (mk_result true (PDict (dict Double.dated_profile)) None
                                  (stamped Stub.deps "get_profile_info"
                                           (S (now Double.dated))))), w1)).
Proof.
  split; [reflexivity |]. split; [reflexivity |]. split; [reflexivity |].
  split; [reflexivity |].
  apply (@unserializable_profile Stub.deps [] Double.dated Double.dated
           Double.dated_client Double.dated_profile "datetime"); reflexivity.
Defined.

(** ** The prompt composer: calls and failures *)

Lemma snoc_nil {A} (l : list A) (c : A) : [] = (l ++ [c])%list -> False.
Proof. destruct l; discriminate. Qed.

Lemma snoc_one {A} (l : list A) (a c : A) : [a] = (l ++ [c])%list -> c = a.
Proof.
  intros E. change [a] with ([] ++ [a])%list in E.
  apply app_inj_tail in E. destruct E. congruence.
Qed.

Lemma snoc_two {A} (l : list A) (a b c : A) : [a; b] = (l ++ [c])%list -> c = b.
Proof.
  intros E. change [a; b] with ([a] ++ [b])%list in E.
  apply app_inj_tail in E. destruct E. congruence.
Qed.

Ltac hyp_step H :=
  match type of H with
  | context [match ?x with _ => _ end] =>
      lazymatch x with
      | context [match _ with _ => _ end] => fail
      | _ => destruct x eqn:?
      end
  end.

Ltac blame He :=
  cbn [client_exn] in He;
  repeat match goal with
         | E : _ = Ret _ |- _ => rewrite E in He
         | E : _ = Raise _ |- _ => rewrite E in He
         end;
  cbn [raised] in He; first [discriminate He | inversion He; subst; reflexivity].

(** The calls that composing a prompt makes: at most two, and when the
    last of them fails, its exception is what the [try] block raises. *)
Lemma get_prompt_body_calls (deps : Collaborators) (client : InstagramClient)
      (name : string) (arguments : pydict) (w w' : World) (out : res string) :
  get_prompt_body deps client name arguments w = (out, w') ->
  exists calls,
    api_calls (events w') = (api_calls (events w) ++ calls)%list
    /\ length calls <= 2
    /\ forall l c e,
        calls = (l ++ [c])%list -> client_exn client c = Some e -> out = Raise e.
Proof.
  unfold get_prompt_body. intros Hb.
  destruct (name =? "analyze_engagement");
    [| destruct (name =? "content_strategy");
       [| destruct (name =? "hashtag_analysis")]];
    unfold bind, await, lift, ret in Hb; cbv zeta in Hb;
    repeat hyp_step Hb; inversion Hb; subst; simpl;
    rewrite ?api_calls_app; simpl; rewrite <- ?app_assoc; simpl.
  all: first
         [ exists []; split; [now rewrite app_nil_r |];
           split; [simpl; lia |];
           intros l c ex Hl He; exfalso; eapply snoc_nil; eassumption
         | eexists; split; [reflexivity |];
           split; [simpl; lia |];
           intros l c ex Hl He;
           first [apply snoc_one in Hl | apply snoc_two in Hl]; subst c; blame He ].
Qed.

(** X18: when the last call that composing a prompt made on the API
    client failed, the prompt handler returns, instead of raising, the
    text "Error generating prompt: " followed by the text of that
    exception. *)
Theorem prompt_client_failure (deps : Collaborators) (name : string) (arguments : pydict)
        (w w0 w1 : World) (client : InstagramClient) (out : res string)
        (l : list call) (c : call) (e : exn) :
  client_obtained deps w client w0 ->
  handle_get_prompt deps name arguments w = (out, w1) ->
  api_calls (events w1) = (api_calls (events w) ++ l ++ [c])%list ->
  client_exn client c = Some e ->
  out = Ret ("Error generating prompt: " ++ exn_str e).
Proof.
  intros H Hout Hcalls He. destruct (obtain_client_quiet H) as (_ & Hc0 & _).
  unfold handle_get_prompt, bind in Hout. unfold client_obtained in H.
  rewrite H in Hout. unfold try_except in Hout.
  destruct (get_prompt_body deps client name arguments w0) as [body w'] eqn:Hb.
  destruct (get_prompt_body_calls _ _ _ _ _ Hb) as (calls & Hcs & _ & Hlast).
  assert (Hw : w' = w1) by (destruct body; inversion Hout; reflexivity).
  subst w'. rewrite Hcs, Hc0 in Hcalls. apply app_inv_head in Hcalls.
  rewrite (Hlast l c e Hcalls He) in Hout. inversion Hout. reflexivity.
Qed.

Lemma prompt_client_failure_witness :
  client_obtained Stub.deps Double.unreachable Double.unreachable_client Double.unreachable
  /\ handle_get_prompt Stub.deps "content_strategy" [] Double.unreachable
     = (Ret ("Error generating prompt: " ++ exn_str Double.timeout),
        mk_world (Some Double.unreachable_client) 1
                 [ApiCall (GetMediaPosts None (Some (PInt 20)) None)])
  /\ Ret ("Error generating prompt: " ++ exn_str Double.timeout)
     = Ret ("Error generating prompt: " ++ exn_str Double.timeout).
Proof.
  split; [reflexivity |]. split; [reflexivity |].
  apply (@prompt_client_failure Stub.deps "content_strategy" [] Double.unreachable
           Double.unreachable
           (mk_world (Some Double.unreachable_client) 1
                     [ApiCall (GetMediaPosts None (Some (PInt 20)) None)])
           Double.unreachable_client _ [] (GetMediaPosts None (Some (PInt 20)) None)
           Double.timeout); reflexivity.
Defined.

(** X19: [analyze_engagement] with a [media_id] that is absent or falsy
    (the empty string) returns its fixed error text without calling the
    API client. *)
Theorem engagement_requires_media_id (deps : Collaborators) (arguments : pydict)
        (w w0 : World) (client : InstagramClient) :
  client_obtained deps w client w0 ->
  truthy (dict_get arguments "media_id") = false ->
  handle_get_prompt deps "analyze_engagement" arguments w
  = (Ret "Error: media_id is required for engagement analysis", w0)
  /\ api_calls (events w0) = api_calls (events w).
Proof.
  intros H Hf. destruct (obtain_client_quiet H) as (_ & Hcalls & _).
  split; [| assumption].
  unfold handle_get_prompt, bind. unfold client_obtained in H. rewrite H.
  unfold try_except, get_prompt_body. simpl. rewrite Hf. reflexivity.
Qed.

Lemma engagement_requires_media_id_witness :
  client_obtained Stub.deps Stub.started Stub.client Stub.started
  /\ truthy (dict_get [("media_id", PStr "")] "media_id") = false
  /\ handle_get_prompt Stub.deps "analyze_engagement" [("media_id", PStr "")] Stub.started
     = (Ret "Error: media_id is required for engagement analysis", Stub.started)
  /\ api_calls (events Stub.started) = api_calls (events Stub.started).
Proof.
  split; [reflexivity |]. split; [reflexivity |].
  apply (@engagement_requires_media_id Stub.deps [("media_id", PStr "")] Stub.started
           Stub.started Stub.client); reflexivity.
Defined.

(** X20: a prompt name that the prompt catalogue does not list returns
    the text "Error: Unknown prompt '<name>'" and makes no call on the
    API client. *)
Theorem unknown_prompt_text (deps : Collaborators) (name : string) (arguments : pydict)
        (w w0 : World) (client : InstagramClient) :
  client_obtained deps w client w0 ->
  prompt_listed name = false ->
  handle_get_prompt deps name arguments w
  = (Ret ("Error: Unknown prompt '" ++ name ++ "'"), w0)
  /\ api_calls (events w0) = api_calls (events w).
Proof.
  intros H Hl. destruct (obtain_client_quiet H) as (_ & Hcalls & _).
  split; [| assumption].
  unfold prompt_listed, mem_string in Hl. simpl in Hl.
  repeat (apply orb_false_elim in Hl; destruct Hl as [? Hl]).
  unfold handle_get_prompt, bind. unfold client_obtained in H. rewrite H.
  unfold try_except, get_prompt_body.
  repeat match goal with E : (name =? _) = false |- _ => rewrite E; clear E end.
  reflexivity.
Qed.

Lemma unknown_prompt_text_witness :
  client_obtained Stub.deps Stub.started Stub.client Stub.started
  /\ prompt_listed "caption_ideas" = false
  /\ handle_get_prompt Stub.deps "caption_ideas" [] Stub.started
     = (Ret ("Error: Unknown prompt '" ++ "caption_ideas" ++ "'"), Stub.started)
  /\ api_calls (events Stub.started) = api_calls (events Stub.started).
Proof.
  split; [reflexivity |]. split; [reflexivity |].
  apply (@unknown_prompt_text Stub.deps "caption_ideas" [] Stub.started Stub.started
           Stub.client); reflexivity.
Defined.

Lemma get_prompt_body_content_strategy (deps : Collaborators) (client : InstagramClient)
      (arguments : pydict) :
  get_prompt_body deps client "content_strategy" arguments
  = bind (await (GetMediaPosts None (Some (PInt 20)) None)
                (get_media_posts client None (Some (PInt 20)) None))
         (fun posts =>
            bind (await (GetAccountInsights None None None)
                        (get_account_insights client None None None))
                 (fun account_insights =>
                    bind (lift (json_dumps
                                  (PList (map (fun p => PDict (post_dict p))
                                              (firstn 5 posts)))))
                         (fun posts_json =>
                            bind (lift (json_dumps (dicts account_insights)))
                                 (fun insights_json =>
                                    ret (strategy_prompt
                                           (py_str deps (dict_get_default arguments
                                                           "focus_area" (PStr "engagement")))
                                           (py_str deps (dict_get_default arguments
                                                           "time_period" (PStr "week")))
                                           posts_json insights_json))))).
Proof. reflexivity. Qed.

(** X21: [content_strategy] fetches 20 posts and then the account
    insights, in this order and with no other argument.  When both calls
    are answered and both payloads have a JSON encoding, the text embeds
    the first five posts only (all of them when there are fewer), and its
    focus area and time period are "engagement" and "week" when the
    arguments are absent. *)
Theorem content_strategy_prompt (deps : Collaborators) (arguments : pydict)
        (w w0 : World) (client : InstagramClient)
        (posts : list Post) (insights : list Insight) (posts_json insights_json : string) :
  client_obtained deps w client w0 ->
  get_media_posts client None (Some (PInt 20)) None = Ret posts ->
  get_account_insights client None None None = Ret insights ->
  json_dumps (PList (map (fun p => PDict (post_dict p)) (firstn 5 posts)))
  = Ret posts_json ->
  json_dumps (dicts insights) = Ret insights_json ->
  let focus_area := match lookup "focus_area" arguments with
                    | Some v => py_str deps v
                    | None => "engagement"
                    end in
  let time_period := match lookup "time_period" arguments with
                     | Some v => py_str deps v
                     | None => "week"
                     end in
  exists w1,
    handle_get_prompt deps "content_strategy" arguments w
    = (Ret (strategy_prompt focus_area time_period posts_json insights_json), w1)
    /\ api_calls (events w1)
       = (api_calls (events w)
            ++ [GetMediaPosts None (Some (PInt 20)) None;
                GetAccountInsights None None None])%list
    /\ length (firstn 5 posts) <= 5.
Proof.
  intros H Hp Hi Hpj Hij focus_area time_period.
  destruct (obtain_client_quiet H) as (_ & Hcalls & _).
  unfold handle_get_prompt, bind at 1. unfold client_obtained in H. rewrite H.
  unfold try_except. rewrite get_prompt_body_content_strategy.
  unfold bind, await, lift. rewrite Hp, Hi, Hpj, Hij. unfold ret.
  eexists. split; [| split].
  - f_equal. f_equal. unfold focus_area, time_period, dict_get_default.
    destruct (lookup "focus_area" arguments), (lookup "time_period" arguments);
      reflexivity.
  - simpl. rewrite !api_calls_app, Hcalls. simpl. now rewrite <- app_assoc.
  - apply firstn_le_length.
Qed.

Lemma content_strategy_prompt_witness :
  client_obtained Stub.deps Stub.started Stub.client Stub.started
  /\ get_media_posts Stub.client None (Some (PInt 20)) None = Ret Stub.posts
  /\ get_account_insights Stub.client None None None = Ret [Stub.insight]
  /\ json_dumps (PList (map (fun p => PDict (post_dict p)) (firstn 5 Stub.posts)))
     = Ret (json_text 0 (PList (map (fun p => PDict (post_dict p)) Stub.posts)))
  /\ json_dumps (dicts [Stub.insight]) = Ret (json_text 0 (dicts [Stub.insight]))
  /\ exists w1,
      handle_get_prompt Stub.deps "content_strategy" [("focus_area", PStr "reach")]
                        Stub.started
      = (Ret (strategy_prompt "reach" "week"
                (json_text 0 (PList (map (fun p => PDict (post_dict p)) Stub.posts)))
                (json_text 0 (dicts [Stub.insight]))), w1)
      /\ api_calls (events w1)
         = (api_calls (events Stub.started)
              ++ [GetMediaPosts None (Some (PInt 20)) None;
                  GetAccountInsights None None None])%list
      /\ length (firstn 5 Stub.posts) <= 5.
Proof.
  split; [reflexivity |]. split; [reflexivity |]. split; [reflexivity |].
  split; [reflexivity |]. split; [reflexivity |].
  apply (@content_strategy_prompt Stub.deps [("focus_area", PStr "reach")] Stub.started
           Stub.started Stub.client Stub.posts [Stub.insight]
           (json_text 0 (PList (map (fun p => PDict (post_dict p)) Stub.posts)))
           (json_text 0 (dicts [Stub.insight]))); reflexivity.
Defined.

(** X22: [content_strategy] stops at the first failure: when fetching the
    posts fails, the account insights are not requested, and the handler
    returns the error text of that exception. *)
Theorem content_strategy_stops_on_failure (deps : Collaborators) (arguments : pydict)
        (w w0 : World) (client : InstagramClient) (e : exn) :
  client_obtained deps w client w0 ->
  get_media_posts client None (Some (PInt 20)) None = Raise e ->
  exists w1,
    handle_get_prompt deps "content_strategy" arguments w
    = (Ret ("Error generating prompt: " ++ exn_str e), w1)
    /\ api_calls (events w1)
       = (api_calls (events w) ++ [GetMediaPosts None (Some (PInt 20)) None])%list.
Proof.
  intros H Hp. destruct (obtain_client_quiet H) as (_ & Hcalls & _).
  unfold handle_get_prompt, bind at 1. unfold client_obtained in H. rewrite H.
  unfold try_except. rewrite get_prompt_body_content_strategy.
  unfold bind at 1. unfold await. rewrite Hp. unfold ret.
  eexists. split; [reflexivity |]. simpl. now rewrite api_calls_app, Hcalls.
Qed.

Lemma content_strategy_stops_on_failure_witness :
  client_obtained Stub.deps Stub.started_failing Stub.failing_client Stub.started_failing
  /\ get_media_posts Stub.failing_client None (Some (PInt 20)) None
     = Raise Stub.rate_limited
  /\ exists w1,
      handle_get_prompt Stub.deps "content_strategy" [] Stub.started_failing
      = (Ret ("Error generating prompt: " ++ exn_str Stub.rate_limited), w1)
      /\ api_calls (events w1)
         = (api_calls (events Stub.started_failing)
              ++ [GetMediaPosts None (Some (PInt 20)) None])%list.
Proof.
  split; [reflexivity |]. split; [reflexivity |].
  apply (@content_strategy_stops_on_failure Stub.deps [] Stub.started_failing
           Stub.started_failing Stub.failing_client Stub.rate_limited); reflexivity.
Defined.

(** X23: [hashtag_analysis] with a [post_count] that [int()] does not
    read as a decimal literal (an optional sign and digits, single
    underscores between digits, ASCII whitespace, U+0085 or U+00A0 around
    them) fails in [int()], before any call on the API client: the handler
    returns the error text of the [ValueError]. *)
Theorem hashtag_analysis_rejects_post_count (deps : Collaborators) (arguments : pydict)
        (w w0 : World) (client : InstagramClient) (s : string) :
  client_obtained deps w client w0 ->
  lookup "post_count" arguments = Some (PStr s) ->
  read_int_literal s = NotLiteral ->
  handle_get_prompt deps "hashtag_analysis" arguments w
  = (Ret ("Error generating prompt: invalid literal for int() with base 10: "
          ++ py_repr deps (PStr s)), w0)
  /\ api_calls (events w0) = api_calls (events w).
Proof.
  intros H Hl Hs. destruct (obtain_client_quiet H) as (_ & Hcalls & _).
  split; [| assumption].
  unfold handle_get_prompt, bind at 1. unfold client_obtained in H. rewrite H.
  unfold try_except. rewrite get_prompt_body_hashtag_analysis.
  unfold bind at 1. unfold lift, dict_get_default, py_int. rewrite Hl, Hs.
  unfold ret. reflexivity.
Qed.

Lemma hashtag_analysis_rejects_post_count_witness :
  client_obtained Stub.deps Stub.started Stub.client Stub.started
  /\ lookup "post_count" [("post_count", PStr "ten")] = Some (PStr "ten")
  /\ read_int_literal "ten" = NotLiteral
  /\ handle_get_prompt Stub.deps "hashtag_analysis" [("post_count", PStr "ten")]
                       Stub.started
     = (Ret ("Error generating prompt: invalid literal for int() with base 10: "
             ++ py_repr Stub.deps (PStr "ten")), Stub.started)
  /\ api_calls (events Stub.started) = api_calls (events Stub.started).
Proof.
  split; [reflexivity |]. split; [reflexivity |]. split; [reflexivity |].
  apply (@hashtag_analysis_rejects_post_count Stub.deps [("post_count", PStr "ten")]
           Stub.started Stub.started Stub.client "ten"); reflexivity.
Defined.

(** ** Hashtags *)

Lemma has_no_space_snoc (s : string) (c : ascii) :
  has_no_space s = true -> is_space c = false ->
  has_no_space (s ++ String c EmptyString) = true.
Proof.
  unfold has_no_space. induction s as [|x s IH]; simpl; intros Hs Hc.
  - now rewrite Hc.
  - apply andb_prop in Hs. destruct Hs as [Hx Hs]. rewrite Hx. simpl. auto.
Qed.

(** The tokens of [split] are not empty and hold no space. *)
Lemma split_from_tokens (s current : string) :
  has_no_space current = true ->
  Forall (fun t => t <> EmptyString /\ has_no_space t = true) (split_from current s).
Proof.
  revert current. induction s as [|c s IH]; intros current Hcur; simpl.
  - destruct (String.eqb_spec current EmptyString); constructor; auto.
  - destruct (is_space c) eqn:Hc.
    + destruct (String.eqb_spec current EmptyString).
      * apply IH. reflexivity.
      * constructor; [auto | apply IH; reflexivity].
    + apply IH. apply has_no_space_snoc; assumption.
Qed.

(** X24: the hashtags listed for a post are tokens of its caption: each
    begins with '#' and holds no whitespace; and the data never has more
    entries than posts were fetched. *)
Theorem hashtags_are_tokens (posts : list Post) :
  length (collect_hashtags [] posts) <= length posts
  /\ forall post tag,
      In tag (hashtags_of post) ->
      starts_with_hash tag = true /\ has_no_space tag = true.
Proof.
  split.
  - rewrite collect_hashtags_filter. simpl. rewrite length_map. apply filter_length_le.
  - intros post tag. unfold hashtags_of. destruct (caption post) as [c |]; [| contradiction].
    intros Hin. apply filter_In in Hin. destruct Hin as [Hin Hhash].
    split; [assumption |].
    pose proof (@split_from_tokens c EmptyString eq_refl) as Hall.
    rewrite Forall_forall in Hall. apply (Hall tag Hin).
Qed.

(** ** Arguments that are read, and arguments that are not *)

Lemma get_prompt_body_analyze_engagement (deps : Collaborators) (client : InstagramClient)
      (arguments : pydict) :
  get_prompt_body deps client "analyze_engagement" arguments
  = (let media_id := dict_get arguments "media_id" in
     if negb (truthy media_id) then
       ret "Error: media_id is required for engagement analysis"
     else
       bind (await (GetMediaInsights media_id None)
                   (get_media_insights client media_id None))
            (fun insights =>
               bind (lift (json_dumps (dicts insights)))
                    (fun insights_json =>
                       ret (engagement_prompt (py_str deps media_id) insights_json)))).
Proof. reflexivity. Qed.

(** X25: [analyze_engagement] with a media id asks the API client for the
    insights of that media, passing no metrics, and, when the client
    answers with insights that have a JSON encoding, returns the brief
    that embeds the media id and the insights. *)
Theorem analyze_engagement_prompt (deps : Collaborators) (arguments : pydict)
        (w w0 : World) (client : InstagramClient)
        (insights : list Insight) (insights_json : string) :
  client_obtained deps w client w0 ->
  let media_id := dict_get arguments "media_id" in
  truthy media_id = true ->
  get_media_insights client media_id None = Ret insights ->
  json_dumps (dicts insights) = Ret insights_json ->
  exists w1,
    handle_get_prompt deps "analyze_engagement" arguments w
    = (Ret (engagement_prompt (py_str deps media_id) insights_json), w1)
    /\ api_calls (events w1)
       = (api_calls (events w) ++ [GetMediaInsights media_id None])%list.
Proof.
  intros H media_id Ht Hi Hj. destruct (obtain_client_quiet H) as (_ & Hcalls & _).
  unfold handle_get_prompt, bind at 1. unfold client_obtained in H. rewrite H.
  unfold try_except. rewrite get_prompt_body_analyze_engagement. cbv zeta.
  fold media_id. rewrite Ht. cbn [negb].
  unfold bind, await, lift. rewrite Hi, Hj. unfold ret.
  eexists. split; [reflexivity |]. simpl. now rewrite api_calls_app, Hcalls.
Qed.

Lemma analyze_engagement_prompt_witness :
  client_obtained Stub.deps Stub.started Stub.client Stub.started
  /\ truthy (dict_get [("media_id", PStr "m1")] "media_id") = true
  /\ get_media_insights Stub.client (dict_get [("media_id", PStr "m1")] "media_id") None
     = Ret [Stub.insight]
  /\ json_dumps (dicts [Stub.insight]) = Ret (json_text 0 (dicts [Stub.insight]))
  /\ exists w1,
      handle_get_prompt Stub.deps "analyze_engagement" [("media_id", PStr "m1")]
                        Stub.started
      = (Ret (engagement_prompt "m1" (json_text 0 (dicts [Stub.insight]))), w1)
      /\ api_calls (events w1)
         = (api_calls (events Stub.started) ++ [GetMediaInsights (PStr "m1") None])%list.
Proof.
  split; [reflexivity |]. split; [reflexivity |]. split; [reflexivity |].
  split; [reflexivity |].
  apply (@analyze_engagement_prompt Stub.deps [("media_id", PStr "m1")] Stub.started
           Stub.started Stub.client [Stub.insight] (json_text 0 (dicts [Stub.insight])));
    reflexivity.
Defined.

(** X26: [analyze_engagement] reads [media_id] and nothing else: two
    invocations whose arguments agree on [media_id] behave alike, so the
    [comparison_period] that the prompt catalogue announces has no
    effect. *)
Theorem analyze_engagement_reads_media_id_only (deps : Collaborators)
        (arguments arguments' : pydict) (w : World) :
  dict_get arguments "media_id" = dict_get arguments' "media_id" ->
  handle_get_prompt deps "analyze_engagement" arguments w
  = handle_get_prompt deps "analyze_engagement" arguments' w.
Proof.
  intros Hm. unfold handle_get_prompt, bind.
  destruct (obtain_client deps w) as [[client | e] w0]; [| reflexivity].
  unfold try_except. rewrite !get_prompt_body_analyze_engagement. cbv zeta.
  rewrite Hm. reflexivity.
Qed.

Lemma analyze_engagement_reads_media_id_only_witness :
  dict_get [("media_id", PStr "m1"); ("comparison_period", PStr "last_week")] "media_id"
  = dict_get [("media_id", PStr "m1")] "media_id"
  /\ handle_get_prompt Stub.deps "analyze_engagement"
                       [("media_id", PStr "m1"); ("comparison_period", PStr "last_week")]
                       Stub.started
     = handle_get_prompt Stub.deps "analyze_engagement" [("media_id", PStr "m1")]
                         Stub.started.
Proof.
  split; [reflexivity |].
  apply (@analyze_engagement_reads_media_id_only Stub.deps
           [("media_id", PStr "m1"); ("comparison_period", PStr "last_week")]
           [("media_id", PStr "m1")] Stub.started).
  reflexivity.
Defined.
